(** * sdk-kernel: the namespace switcher and the interface-injection chain element

    A shallow embedding of
      - pkg/kernel/nsswitch/ns_switch.go           (Module [nsswitch])
      - pkg/kernel/networkservice/inject/server.go (Module [inject])
    over an executable model of the operating-system services the two
    packages consume (network-namespace descriptors, the calling thread's
    namespace, the interface table), with scripted failures of the fallible
    system calls and a trace of every call that is issued.

    The model is sequential: one goroutine on one OS thread.  The calls to
    runtime.LockOSThread / UnlockOSThread have no counterpart here. *)

From stdpp Require Import gmap strings list fin_maps.
From Stdlib Require Import ZArith Lia.

Local Open Scope Z_scope.

(* ===================================================================== *)
(** ** Errors, panics and outcomes *)
(* ===================================================================== *)

Inductive Errno := EBADF | EEXIST | EINVAL | EMFILE | ENODEV | ENOENT | EPERM.

(** An argument of a format string ([%s], [%v]); kept unformatted. *)
Inductive arg :=
| ArgString (s : string)
| ArgHandle (h : Z).

(** Go's [error] values.  A nil error is [None : option error]. *)
Inductive error :=
| SysError (e : Errno)                                   (* a failed system call *)
| LinkNotFound (name : string)                           (* netlink.LinkNotFoundError *)
| ChainError (msg : string)                              (* made by another chain element *)
| Wrapped (cause : error) (format : string) (args : list arg).  (* errors.Wrap / Wrapf *)

Definition errors_Wrap (err : error) (message : string) : error :=
  Wrapped err message [].

Definition errors_Wrapf (err : error) (format : string) (args : list arg) : error :=
  Wrapped err format args.

(** The value carried by a Go panic. *)
Inductive PanicValue :=
| PanicError (e : error)          (* panic(err.Error()) *)
| NilPointerDereference.          (* runtime error: invalid memory address *)

Inductive outcome (A : Type) :=
| Returned (a : A)
| Panicked (v : PanicValue).
Arguments Returned {A} a.
Arguments Panicked {A} v.

(* ===================================================================== *)
(** ** The operating system *)
(* ===================================================================== *)

Inductive Event :=
| EvGet                                   (* netns.Get *)
| EvGetFromPath (path : string)           (* netns.GetFromPath *)
| EvSet (h : Z)                           (* netns.Set: setns(2) *)
| EvCloseFd (h : Z)                       (* NsHandle.Close: close(2) *)
| EvLinkByName (name : string)            (* netlink.LinkByName *)
| EvLinkSetNsFd (name : string) (fd : Z)  (* netlink.LinkSetNsFd *)
| EvNextRequest                           (* next.Server(ctx).Request *)
| EvNextClose                             (* next.Server(ctx).Close *)
| EvInfof (format : string) (args : list arg)
| EvWarnf (format : string) (args : list arg).

(** - [cur]     the network namespace of the calling thread;
    - [fdtab]   the open descriptors that refer to a network namespace;
    - [nspaths] the paths that name a network namespace;
    - [links]   the interfaces, by namespace and name, with their index;
    - [faults]  the script of the fallible system calls still to come: each
                such call takes the head, [Some e] makes it fail with [e];
    - [trace]   the calls issued so far, newest first. *)
Record World := mkWorld {
  cur : nat;
  fdtab : gmap Z nat;
  nspaths : gmap string nat;
  links : gmap (nat * string) nat;
  faults : list (option Errno);
  trace : list Event
}.

Definition emit (e : Event) (w : World) : World :=
  mkWorld (cur w) (fdtab w) (nspaths w) (links w) (faults w) (e :: trace w).

Definition set_cur (n : nat) (w : World) : World :=
  mkWorld n (fdtab w) (nspaths w) (links w) (faults w) (trace w).

Definition set_fdtab (t : gmap Z nat) (w : World) : World :=
  mkWorld (cur w) t (nspaths w) (links w) (faults w) (trace w).

Definition set_links (l : gmap (nat * string) nat) (w : World) : World :=
  mkWorld (cur w) (fdtab w) (nspaths w) l (faults w) (trace w).

(** The next entry of the failure script; an exhausted script means that
    nothing fails any more. *)
Definition take_fault (w : World) : option Errno * World :=
  match faults w with
  | [] => (None, w)
  | f :: fs => (f, mkWorld (cur w) (fdtab w) (nspaths w) (links w) fs (trace w))
  end.

(** A descriptor number that is not in use (and not negative). *)
Definition fresh_fd (t : gmap Z nat) : Z :=
  foldr (fun kv acc => Z.max (kv.1 + 1) acc) 0 (map_to_list t).

(** What descriptor [h] refers to; no negative number is a descriptor. *)
Definition fd_lookup (w : World) (h : Z) : option nat :=
  if h <? 0 then None else fdtab w !! h.

(** Opening a namespace file yields a new descriptor for that namespace. *)
Definition open_ns (n : nat) (w : World) : Z * World :=
  let fd := fresh_fd (fdtab w) in (fd, set_fdtab (<[fd := n]> (fdtab w)) w).

(** netns.Get: a new handle to the calling thread's namespace. *)
Definition netns_Get (w : World) : (Z * option error) * World :=
  let '(f, w1) := take_fault (emit EvGet w) in
  match f with
  | Some e => ((-1, Some (SysError e)), w1)
  | None => let '(fd, w2) := open_ns (cur w1) w1 in ((fd, None), w2)
  end.

(** netns.GetFromPath: open(2) on the path; the empty path names nothing. *)
Definition netns_GetFromPath (path : string) (w : World) : (Z * option error) * World :=
  let '(f, w1) := take_fault (emit (EvGetFromPath path) w) in
  match f with
  | Some e => ((-1, Some (SysError e)), w1)
  | None =>
    if String.eqb path "" then ((-1, Some (SysError ENOENT)), w1)
    else match nspaths w1 !! path with
         | None => ((-1, Some (SysError ENOENT)), w1)
         | Some n => let '(fd, w2) := open_ns n w1 in ((fd, None), w2)
         end
  end.

(** netns.Set: setns(2).  A failed call leaves the thread where it was. *)
Definition netns_Set (h : Z) (w : World) : option error * World :=
  let '(f, w1) := take_fault (emit (EvSet h) w) in
  match f with
  | Some e => (Some (SysError e), w1)
  | None =>
    match fd_lookup w1 h with
    | None => (Some (SysError EBADF), w1)
    | Some n => (None, set_cur n w1)
    end
  end.

(** NsHandle.Equal: the same number, or fstat(2) succeeds on both and
    reports the same namespace. *)
Definition NsHandle_Equal (ns other : Z) (w : World) : bool :=
  if Z.eqb ns other then true
  else match fd_lookup w ns, fd_lookup w other with
       | Some a, Some b => Nat.eqb a b
       | _, _ => false
       end.

(** NsHandle.Close: close(2), then the handle is reset to -1.  close(2)
    releases an open descriptor whatever happens, and fails with EBADF on
    anything else.  The second component is the handle after the call. *)
Definition NsHandle_Close (ns : Z) (w : World) : (option error * Z) * World :=
  let w1 := emit (EvCloseFd ns) w in
  match fd_lookup w1 ns with
  | None => ((Some (SysError EBADF), ns), w1)
  | Some _ => ((None, -1), set_fdtab (delete ns (fdtab w1)) w1)
  end.

(** A netlink.Link as the lookup returns it. *)
Record Link := mkLink { LinkName : string; LinkIndex : nat }.

(** netlink.LinkByName: in the calling thread's namespace. *)
Definition netlink_LinkByName (name : string) (w : World) : (option Link * option error) * World :=
  let '(f, w1) := take_fault (emit (EvLinkByName name) w) in
  match f with
  | Some e => ((None, Some (SysError e)), w1)
  | None =>
    match links w1 !! (cur w1, name) with
    | None => ((None, Some (LinkNotFound name)), w1)
    | Some i => ((Some (mkLink name i), None), w1)
    end
  end.

(** netlink.LinkSetNsFd: move the link of the calling thread's namespace
    into the namespace descriptor [fd] refers to. *)
Definition netlink_LinkSetNsFd (link : Link) (fd : Z) (w : World) : option error * World :=
  let '(f, w1) := take_fault (emit (EvLinkSetNsFd (LinkName link) fd) w) in
  match f with
  | Some e => (Some (SysError e), w1)
  | None =>
    match fd_lookup w1 fd with
    | None => (Some (SysError EBADF), w1)
    | Some n =>
      let k := (cur w1, LinkName link) in
      match links w1 !! k with
      | None => (Some (SysError ENODEV), w1)
      | Some i =>
        if negb (Nat.eqb i (LinkIndex link)) then (Some (SysError ENODEV), w1)
        else if negb (Nat.eqb n (cur w1)) && bool_decide (is_Some (links w1 !! (n, LinkName link)))
        then (Some (SysError EEXIST), w1)
        else (None, set_links (<[(n, LinkName link) := i]> (delete k (links w1))) w1)
      end
    end
  end.

(** Counting the calls of one kind in a trace. *)
Definition is_set (e : Event) : bool :=
  match e with EvSet _ => true | _ => false end.

Definition is_link_call (e : Event) : bool :=
  match e with EvLinkByName _ | EvLinkSetNsFd _ _ => true | _ => false end.

Definition is_next_close (e : Event) : bool :=
  match e with EvNextClose => true | _ => false end.

Definition calls (p : Event -> bool) (w : World) : nat :=
  length (filter (fun e => p e = true) (trace w)).

(* ===================================================================== *)
(** ** Package nsswitch *)
(* ===================================================================== *)

Module nsswitch.

(** NSSwitch is a tool to switch between net namespaces; NetNSHandle is the
    base net namespace handle. *)
Record NSSwitch := mkNSSwitch { NetNSHandle : Z }.

(** NewNSSwitch: a nil switcher with the error when netns.Get fails. *)
Definition NewNSSwitch (w : World) : (option NSSwitch * option error) * World :=
  let '((h, err), w1) := netns_Get w in
  match err with
  | Some e => ((None, Some e), w1)
  | None => ((Some (mkNSSwitch h), None), w1)
  end.

(** SwitchTo switches net namespace by handle. *)
Definition SwitchTo (s : NSSwitch) (netNSHandle : Z) (w : World) : option error * World :=
  let '((currNetNSHandle, err), w1) := netns_Get w in
  match err with
  | Some e => (Some e, w1)
  | None =>
    if NsHandle_Equal currNetNSHandle netNSHandle w1 then (None, w1)
    else netns_Set netNSHandle w1
  end.

(** Close closes the handle opened by NSSwitch.  The receiver is a pointer:
    on nil the field access panics.  The second component of the result is
    the switcher after the call. *)
Definition Close (s : option NSSwitch) (w : World)
  : outcome (option error * NSSwitch) * World :=
  match s with
  | None => (Panicked NilPointerDereference, w)
  | Some s =>
    let '((err, h), w1) := NsHandle_Close (NetNSHandle s) w in
    match err with
    | Some e => (Returned (Some e, mkNSSwitch h), w1)
    | None => (Returned (None, mkNSSwitch (-1)), w1)
    end
  end.

End nsswitch.

(* ===================================================================== *)
(** ** Computations that may panic *)
(* ===================================================================== *)

Definition M (A : Type) : Type := World -> outcome A * World.

Definition M_ret {A} (a : A) : M A := fun w => (Returned a, w).

Definition M_bind {A B} (f : A -> M B) (m : M A) : M B :=
  fun w =>
    match m w with
    | (Returned a, w1) => f a w1
    | (Panicked v, w1) => (Panicked v, w1)
    end.

#[global] Instance M_mret : MRet M := @M_ret.
#[global] Instance M_mbind : MBind M := @M_bind.

Definition panic {A} (v : PanicValue) : M A := fun w => (Panicked v, w).

(** A call of a function that cannot panic. *)
Definition call {A} (f : World -> A * World) : M A :=
  fun w => let '(a, w1) := f w in (Returned a, w1).

(** [defer body deferred]: the deferred function runs when [body] is left,
    by a return or by a panic; a panic of the deferred function replaces
    the outcome of [body]. *)
Definition defer {A} (body : M A) (deferred : M unit) : M A :=
  fun w =>
    let '(o, w1) := body w in
    match deferred w1 with
    | (Returned _, w2) => (o, w2)
    | (Panicked v, w2) => (Panicked v, w2)
    end.

Definition log_Infof (format : string) (args : list arg) : M unit :=
  fun w => (Returned tt, emit (EvInfof format args) w).

Definition log_Warnf (format : string) (args : list arg) : M unit :=
  fun w => (Returned tt, emit (EvWarnf format args) w).

(* ===================================================================== *)
(** ** Package inject *)
(* ===================================================================== *)

(** Modelled from the spec: the connection descriptor of the api package
    (not under src/): a connection has an id and mechanism parameters, the
    target-namespace reference and the interface name, each of which may be
    missing.  A getter returns the empty string for a missing parameter. *)
Record Mechanism := mkMechanism {
  NetNSURL : option string;
  InterfaceName : option string
}.

Record Connection := mkConnection {
  Id : string;
  GetMechanism : Mechanism
}.

Record NetworkServiceRequest := mkRequest { GetConnection : Connection }.

Definition GetNetNSURL (m : Mechanism) : string := default ""%string (NetNSURL m).

Definition GetInterfaceName (m : Mechanism) (conn : Connection) : string :=
  default ""%string (InterfaceName m).

Module inject.
Import nsswitch.

(** The deferred closure of moveInterfaceToAnotherNamespace (lines 122-126):
    switch back to the switcher's own namespace, panic when that fails. *)
Definition switchBack (nsSwitch : NSSwitch) : M unit :=
  err ← call (SwitchTo nsSwitch (NetNSHandle nsSwitch));
  match err with
  | Some err =>
    panic (PanicError (errors_Wrap err "failed to switch back to the forwarder net NS"))
  | None => mret tt
  end.

(** Lines 128-137: look the interface up and reassign it. *)
Definition moveLink (ifName : string) (toNetNS : Z) : M (option error) :=
  '(link, err) ← call (netlink_LinkByName ifName);
  match link, err with
  | _, Some err =>
    mret (Some (errors_Wrapf err "failed to get net interface: %v" [ArgString ifName]))
  | None, None => panic NilPointerDereference
  | Some link, None =>
    err ← call (netlink_LinkSetNsFd link toNetNS);
    match err with
    | Some err =>
      mret (Some (errors_Wrapf err "failed to move net interface to net NS: %v %v"
                               [ArgString ifName; ArgHandle toNetNS]))
    | None => mret None
    end
  end.

Definition moveInterfaceToAnotherNamespace
  (nsSwitch : NSSwitch) (ifName : string) (fromNetNS toNetNS : Z) : M (option error) :=
  err ← call (SwitchTo nsSwitch fromNetNS);
  match err with
  | Some err =>
    mret (Some (errors_Wrapf err "failed to switch to net NS: %v" [ArgHandle fromNetNS]))
  | None => defer (moveLink ifName toNetNS) (switchBack nsSwitch)
  end.

(** The named results are [nsSwitch], [clientNetNSHandle] and [err].  Each
    return statement stores its operands in them before the deferred
    closure runs, and the closure reads [err] and [nsSwitch] from there:
    after [return nil, -1, errors.Wrapf(...)] it calls Close on nil. *)
Definition initNetNSSwitchAndHandle (netNSURL : string)
  : M (option NSSwitch * Z * option error) :=
  '(nsSwitch, err) ← call NewNSSwitch;
  match err with
  | Some err => mret (None, -1, Some (errors_Wrap err "failed to init net NS switch"))
  | None =>
    fun w =>
      let '((clientNetNSHandle, err), w1) := netns_GetFromPath netNSURL w in
      let results :=
        match err with
        | Some err =>
          (None, -1,
           Some (errors_Wrapf err "failed to obtain Client's network namespace handle" []))
        | None => (nsSwitch, clientNetNSHandle, None)
        end in
      match results with
      | (nsSwitch', _, Some _) =>
        match Close nsSwitch' w1 with
        | (Returned _, w2) => (Returned results, w2)
        | (Panicked v, w2) => (Panicked v, w2)
        end
      | (_, _, None) => (Returned results, w1)
      end
  end.

(** The deferred closure of Request and of Close: release both handles,
    whatever the calls report. *)
Definition closeHandles (nsSwitch : option NSSwitch) (clientNetNSHandle : Z) : M unit :=
  fun w =>
    match Close nsSwitch w with
    | (Panicked v, w1) => (Panicked v, w1)
    | (Returned _, w1) =>
      let '(_, w2) := NsHandle_Close clientNetNSHandle w1 in (Returned tt, w2)
    end.

Definition Empty := unit.

Section Chain.

(** The rest of the chain, next.Server(ctx): an opaque delegation. *)
Variable next_Request : NetworkServiceRequest -> M (option Connection * option error).
Variable next_Close : Connection -> M (option Empty * option error).

(** The delegation, as this element issues it. *)
Definition next_Server_Request (request : NetworkServiceRequest)
  : M (option Connection * option error) :=
  fun w => next_Request request (emit EvNextRequest w).

Definition next_Server_Close (conn : Connection) : M (option Empty * option error) :=
  fun w => next_Close conn (emit EvNextClose w).

Definition Request (request : NetworkServiceRequest)
  : M (option Connection * option error) :=
  let connID := Id (GetConnection request) in
  let mech := GetMechanism (GetConnection request) in
  '(nsSwitch, clientNetNSHandle, err) ← initNetNSSwitchAndHandle (GetNetNSURL mech);
  match err with
  | Some err => mret (None, Some err)
  | None =>
    defer
      (let ifName := GetInterfaceName mech (GetConnection request) in
       match nsSwitch with
       | None => panic NilPointerDereference
       | Some s =>
         err ← moveInterfaceToAnotherNamespace s ifName (NetNSHandle s) clientNetNSHandle;
         match err with
         | Some err =>
           mret (None,
                 Some (errors_Wrapf err
                   "failed to move network interface %s into the Client's namespace"
                   [ArgString ifName]))
         | None =>
           log_Infof "moved network interface %s into the Client's namespace for connection %s"
                     [ArgString ifName; ArgString connID];;
           '(conn, err) ← next_Server_Request request;
           match err with
           | Some _ =>
             errMovingBack ←
               moveInterfaceToAnotherNamespace s ifName clientNetNSHandle (NetNSHandle s);
             match errMovingBack with
             | Some _ =>
               log_Warnf
                 "failed to move network interface %s into the Forwarder's namespace for connection %s"
                 [ArgString ifName; ArgString connID]
             | None =>
               log_Infof
                 "moved network interface %s into the Forwarder's namespace for connection %s"
                 [ArgString ifName; ArgString connID]
             end
           | None => mret tt
           end;;
           mret (conn, err)
         end
       end)
      (closeHandles nsSwitch clientNetNSHandle)
  end.

Definition Close (conn : Connection) : M (option Empty * option error) :=
  let mech := GetMechanism conn in
  '(nsSwitch, clientNetNSHandle, err) ← initNetNSSwitchAndHandle (GetNetNSURL mech);
  match err with
  | Some err => mret (None, Some err)
  | None =>
    defer
      (let ifName := GetInterfaceName mech conn in
       match nsSwitch with
       | None => panic NilPointerDereference
       | Some s =>
         err ← moveInterfaceToAnotherNamespace s ifName clientNetNSHandle (NetNSHandle s);
         match err with
         | Some err =>
           mret (None,
                 Some (errors_Wrapf err
                   "failed to move network interface %s into the Forwarder's namespace"
                   [ArgString ifName]))
         | None =>
           log_Infof "moved network interface %s into the Forwarder's namespace for connection %s"
                     [ArgString ifName; ArgString (Id conn)];;
           next_Server_Close conn
         end
       end)
      (closeHandles nsSwitch clientNetNSHandle)
  end.

End Chain.

End inject.

(* ===================================================================== *)
(** ** Package ipaddress (the chain element of src/unnamed/part_000) *)
(* ===================================================================== *)

Module ipaddress.

Section Chain.

(** The rest of the chain; the connection is a pointer and may be nil. *)
Variable next_Request : NetworkServiceRequest -> M (option Connection * option error).
Variable next_Close : option Connection -> M (option unit * option error).

(** [create] is declared in another file of the package, and
    metadata.IsClient(i) is fixed by the context: both are parameters. *)
Variable create : option Connection -> bool -> M (option error).
Variable isClient : bool.

Definition next_Server_Request (request : NetworkServiceRequest)
  : M (option Connection * option error) :=
  fun w => next_Request request (emit EvNextRequest w).

Definition next_Server_Close (conn : option Connection) : M (option unit * option error) :=
  fun w => next_Close conn (emit EvNextClose w).

Definition Close (conn : option Connection) : M (option unit * option error) :=
  next_Server_Close conn.

Definition Request (request : NetworkServiceRequest)
  : M (option Connection * option error) :=
  '(conn, err) ← next_Server_Request request;
  match err with
  | Some err => mret (None, Some err)
  | None =>
    err ← create conn isClient;
    match err with
    | Some err =>
      _ ← Close conn;
      mret (None, Some err)
    | None => mret (conn, None)
    end
  end.

End Chain.

End ipaddress.

(* ===================================================================== *)
(** ** Observations on runs, and the scenarios of the examples *)
(* ===================================================================== *)

Import nsswitch.
Import inject.

Definition is_get (e : Event) : bool :=
  match e with EvGet => true | _ => false end.

(** The errors of the acquisition stage (initNetNSSwitchAndHandle). *)
Definition AcquisitionError (e : error) : bool :=
  match e with
  | Wrapped _ f _ =>
    String.eqb f "failed to init net NS switch"
    || String.eqb f "failed to obtain Client's network namespace handle"
  | _ => false
  end.

(** Descriptors that are open stay open, on the same namespace. *)
Definition fds_kept (w w' : World) : Prop :=
  forall h n, fd_lookup w h = Some n -> fd_lookup w' h = Some n.

(** The world after the deferred release of both handles. *)
Definition released (s : NSSwitch) (clientNetNSHandle : Z) (w : World) : World :=
  snd (closeHandles (Some s) clientNetNSHandle w).

(** The two mechanism parameters as Request and Close read them. *)
Definition url_of (conn : Connection) : string := GetNetNSURL (GetMechanism conn).

Definition name_of (conn : Connection) : string := GetInterfaceName (GetMechanism conn) conn.

(** The world in which the delegation of Request starts. *)
Definition before_next_Request (request : NetworkServiceRequest) (w : World) : World :=
  emit (EvInfof "moved network interface %s into the Client's namespace for connection %s"
                [ArgString (name_of (GetConnection request));
                 ArgString (Id (GetConnection request))]) w.

(** What the compensation logs. *)
Definition compensation_signal (request : NetworkServiceRequest) (r : option error) : Event :=
  match r with
  | Some _ =>
    EvWarnf
      "failed to move network interface %s into the Forwarder's namespace for connection %s"
      [ArgString (name_of (GetConnection request)); ArgString (Id (GetConnection request))]
  | None =>
    EvInfof "moved network interface %s into the Forwarder's namespace for connection %s"
      [ArgString (name_of (GetConnection request)); ArgString (Id (GetConnection request))]
  end.

(** The world in which the delegation of Close starts. *)
Definition before_next_Close (conn : Connection) (w : World) : World :=
  emit (EvInfof "moved network interface %s into the Forwarder's namespace for connection %s"
                [ArgString (name_of conn); ArgString (Id conn)]) w.

(** A thread in namespace 1 holding descriptor 3 on namespace 1 and
    descriptor 4 on namespace 2; the script is that of the calls to come. *)
Definition two_ns_world (script : list (option Errno)) : World :=
  mkWorld 1%nat {[ 3 := 1%nat; 4 := 2%nat ]} ∅ ∅ script [].

(** A thread in namespace 1 with the interface veth0, descriptors 3 and 4
    on namespaces 1 and 2, and a path that names namespace 2. *)
Definition veth_world (script : list (option Errno)) : World :=
  mkWorld 1%nat {[ 3 := 1%nat; 4 := 2%nat ]}
          {[ "/var/run/netns/client1"%string := 2%nat ]}
          {[ (1%nat, "veth0"%string) := 7%nat ]} script [].

Definition conn1 : Connection :=
  mkConnection "conn-1" (mkMechanism (Some "/var/run/netns/client1"%string)
                                     (Some "veth0"%string)).

(** conn1 without the interface name, and without the reference. *)
Definition conn_no_name : Connection :=
  mkConnection "conn-1" (mkMechanism (Some "/var/run/netns/client1"%string) None).

Definition conn_no_reference : Connection :=
  mkConnection "conn-1" (mkMechanism None (Some "veth0"%string)).

(** The thread in namespace 1, no descriptor open yet, veth0 in namespace
    [ns], the path of conn1 naming namespace 2. *)
Definition start_world (ns : nat) (script : list (option Errno)) : World :=
  mkWorld 1%nat ∅ {[ "/var/run/netns/client1"%string := 2%nat ]}
          {[ (ns, "veth0"%string) := 7%nat ]} script [].

(** A chain that accepts everything, and one that refuses every Request. *)
Definition accepting_Request : NetworkServiceRequest -> M (option Connection * option error) :=
  fun request => mret (Some (GetConnection request), None).

Definition refusing_Request : NetworkServiceRequest -> M (option Connection * option error) :=
  fun _ => mret (None, Some (ChainError "refused")).

Definition accepting_Close : Connection -> M (option Empty * option error) :=
  fun _ => mret (Some tt, None).

(** The stages of a Request of conn1 that the chain refuses, from
    [start_world 1 script]. *)
Definition stage_init (script : list (option Errno)) : World :=
  snd (initNetNSSwitchAndHandle (url_of conn1) (start_world 1 script)).

Definition stage_moved (script : list (option Errno)) : World :=
  snd (moveInterfaceToAnotherNamespace (mkNSSwitch 0) "veth0" 0 1 (stage_init script)).

Definition stage_refused (script : list (option Errno)) : World :=
  snd (next_Server_Request refusing_Request (mkRequest conn1)
         (before_next_Request (mkRequest conn1) (stage_moved script))).

Definition stage_compensated (script : list (option Errno)) : World :=
  snd (moveInterfaceToAnotherNamespace (mkNSSwitch 0) "veth0" 1 0 (stage_refused script)).

(** The set-up of a test of ipaddress: a [create] that records the
    connection it is given in the log and fails when [fails] is set. *)
Definition logging_create (fails : bool) : option Connection -> bool -> M (option error) :=
  fun conn _ w =>
    (Returned (if fails then Some (ChainError "no address") else None),
     emit (EvInfof "create" [ArgString (from_option Id ""%string conn)]) w).

Definition failing_Close : option Connection -> M (option unit * option error) :=
  fun _ => mret (None, Some (ChainError "close refused")).


Definition is_path_open (e : Event) : bool :=
  match e with EvGetFromPath _ => true | _ => false end.

Definition is_next_request (e : Event) : bool :=
  match e with EvNextRequest => true | _ => false end.

(* ===================================================================== *)
(** ** Facts about the operating-system model *)
(* ===================================================================== *)


Lemma fds_kept_trans w1 w2 w3 : fds_kept w1 w2 -> fds_kept w2 w3 -> fds_kept w1 w3.
Proof. intros H12 H23 h n Hh. apply H23, H12, Hh. Qed.

Lemma fresh_fd_above (t : gmap Z nat) k v : t !! k = Some v -> k < fresh_fd t.
Proof.
  intros Hk. apply elem_of_map_to_list in Hk. unfold fresh_fd.
  induction (map_to_list t) as [|[k' v'] l IH]; simpl.
  - inversion Hk.
  - apply elem_of_cons in Hk as [Heq | Hin].
    + inversion Heq; subst. lia.
    + specialize (IH Hin). lia.
Qed.

Lemma fresh_fd_nonneg (t : gmap Z nat) : 0 <= fresh_fd t.
Proof.
  unfold fresh_fd. induction (map_to_list t) as [|[k v] l IH]; simpl; lia.
Qed.

Lemma fresh_fd_unused (t : gmap Z nat) : t !! fresh_fd t = None.
Proof.
  destruct (t !! fresh_fd t) as [v|] eqn:E; [|reflexivity].
  apply fresh_fd_above in E. lia.
Qed.

Lemma fd_lookup_emit e w h : fd_lookup (emit e w) h = fd_lookup w h.
Proof. reflexivity. Qed.

Lemma take_fault_fields w f w1 :
  take_fault w = (f, w1) ->
  cur w1 = cur w /\ fdtab w1 = fdtab w /\ nspaths w1 = nspaths w /\
  links w1 = links w /\ trace w1 = trace w.
Proof.
  unfold take_fault. destruct (faults w); simpl; intros [= <- <-]; simpl; auto.
Qed.

Lemma open_ns_spec n w fd w1 :
  open_ns n w = (fd, w1) ->
  fd_lookup w1 fd = Some n /\ fd_lookup w fd = None /\ fds_kept w w1 /\
  cur w1 = cur w /\ nspaths w1 = nspaths w /\ links w1 = links w /\
  trace w1 = trace w /\ faults w1 = faults w.
Proof.
  unfold open_ns. intros [= <- <-]. unfold fds_kept, fd_lookup; simpl.
  pose proof (fresh_fd_nonneg (fdtab w)) as Hge.
  pose proof (fresh_fd_unused (fdtab w)) as Hun.
  destruct (fresh_fd (fdtab w) <? 0) eqn:E; [apply Z.ltb_lt in E; lia|].
  rewrite lookup_insert_eq. repeat split; auto.
  intros h n'. destruct (h <? 0); cbn; [congruence|]. intros Hh.
  rewrite lookup_insert_ne; [exact Hh|]. intros Heq. rewrite <- Heq in Hh. congruence.
Qed.

Lemma fds_kept_of_fdtab w w' : fdtab w' = fdtab w -> fds_kept w w'.
Proof. intros H h n. unfold fd_lookup. rewrite H. auto. Qed.

(** netns.Get either fails and changes nothing but the script and the
    trace, or opens a new descriptor on the thread's namespace. *)
Lemma netns_Get_spec w h err w1 :
  netns_Get w = ((h, err), w1) ->
  cur w1 = cur w /\ nspaths w1 = nspaths w /\ links w1 = links w /\
  trace w1 = EvGet :: trace w /\ fds_kept w w1 /\
  match err with
  | Some _ => h = -1 /\ fdtab w1 = fdtab w
  | None => fd_lookup w1 h = Some (cur w) /\ fd_lookup w h = None
  end.
Proof.
  unfold netns_Get. destruct (take_fault (emit EvGet w)) as [f w0] eqn:Ef.
  apply take_fault_fields in Ef as (Hc & Hf & Hp & Hl & Ht).
  simpl in Hc, Hf, Hp, Hl, Ht.
  assert (Hk0 : fds_kept w w0) by (apply fds_kept_of_fdtab; exact Hf).
  destruct f as [e|].
  - intros [= <- <- <-]. repeat split; auto.
  - destruct (open_ns (cur w0) w0) as [fd w2] eqn:Eo. intros [= <- <- <-].
    apply open_ns_spec in Eo as (Hnew & Hold & Hk & Hc2 & Hp2 & Hl2 & Ht2 & _).
    split; [congruence|]. split; [congruence|]. split; [congruence|].
    split; [congruence|]. split; [eapply fds_kept_trans; eauto|].
    split; [congruence|].
    unfold fd_lookup in *. rewrite <- Hf. exact Hold.
Qed.

Lemma netns_Set_spec h w err w1 :
  netns_Set h w = (err, w1) ->
  nspaths w1 = nspaths w /\ links w1 = links w /\ fdtab w1 = fdtab w /\
  trace w1 = EvSet h :: trace w /\
  match err with
  | Some _ => cur w1 = cur w
  | None => fd_lookup w h = Some (cur w1)
  end.
Proof.
  unfold netns_Set. destruct (take_fault (emit (EvSet h) w)) as [f w0] eqn:Ef.
  apply take_fault_fields in Ef as (Hc & Hf & Hp & Hl & Ht). simpl in *.
  destruct f as [e|].
  - intros [= <- <-]. auto.
  - assert (Hfd : fd_lookup w0 h = fd_lookup w h) by (unfold fd_lookup; rewrite Hf; auto).
    rewrite Hfd. destruct (fd_lookup w h) as [n|].
    + intros [= <- <-]. simpl. auto.
    + intros [= <- <-]. auto.
Qed.

Lemma NsHandle_Equal_true a b w n :
  fd_lookup w a = Some n -> NsHandle_Equal a b w = true -> fd_lookup w b = Some n.
Proof.
  unfold NsHandle_Equal. intros Ha. destruct (Z.eqb_spec a b) as [->|_]; [auto|].
  rewrite Ha. destruct (fd_lookup w b) as [m|]; [|discriminate].
  intros Hm. apply Nat.eqb_eq in Hm. congruence.
Qed.

Lemma NsHandle_Equal_same a b w n :
  fd_lookup w a = Some n -> fd_lookup w b = Some n -> NsHandle_Equal a b w = true.
Proof.
  unfold NsHandle_Equal. intros -> ->. rewrite Nat.eqb_refl.
  destruct (a =? b); reflexivity.
Qed.

Lemma NsHandle_Equal_other a b w n m :
  fd_lookup w a = Some n -> fd_lookup w b = Some m -> n <> m ->
  NsHandle_Equal a b w = false.
Proof.
  unfold NsHandle_Equal. intros Ha Hb Hne.
  destruct (Z.eqb_spec a b) as [->|_]; [congruence|].
  rewrite Ha, Hb. apply Nat.eqb_neq. exact Hne.
Qed.

Lemma calls_cons p e w w' :
  trace w' = e :: trace w ->
  calls p w' = (if p e then S (calls p w) else calls p w).
Proof.
  unfold calls. intros ->. rewrite filter_cons.
  destruct (p e); simpl; [reflexivity|].
  destruct (decide (false = true)); [discriminate|reflexivity].
Qed.

(* ===================================================================== *)
(** ** The namespace switcher *)
(* ===================================================================== *)

Lemma calls_same p w w' : trace w' = trace w -> calls p w' = calls p w.
Proof. unfold calls. intros ->. reflexivity. Qed.

(** What one SwitchTo does: one netns.Get, at most one netns.Set, nothing
    on the interfaces; on success the requested handle denotes the
    thread's namespace, on failure the thread has not moved. *)
Lemma SwitchTo_spec s h w err w' :
  SwitchTo s h w = (err, w') ->
  nspaths w' = nspaths w /\ links w' = links w /\ fds_kept w w' /\
  calls is_get w' = S (calls is_get w) /\
  calls is_link_call w' = calls is_link_call w /\
  calls is_next_close w' = calls is_next_close w /\
  match err with
  | None => fd_lookup w' h = Some (cur w')
  | Some _ => cur w' = cur w
  end.
Proof.
  unfold SwitchTo. destruct (netns_Get w) as [[c e] w1] eqn:Eg.
  apply netns_Get_spec in Eg as (Hc & Hp & Hl & Ht & Hk & He).
  destruct e as [e|].
  - intros [= <- <-]. repeat split; auto;
      rewrite (calls_cons _ _ _ _ Ht); reflexivity.
  - destruct He as [Hnew _].
    destruct (NsHandle_Equal c h w1) eqn:Eq.
    + intros [= <- <-].
      repeat split; auto; try (rewrite (calls_cons _ _ _ _ Ht); reflexivity).
      rewrite Hc. eapply NsHandle_Equal_true; eauto.
    + intros Hs. apply netns_Set_spec in Hs as (Hp2 & Hl2 & Hf2 & Ht2 & He2).
      split; [congruence|]. split; [congruence|].
      split; [eapply fds_kept_trans; [exact Hk|apply fds_kept_of_fdtab; exact Hf2]|].
      rewrite !(calls_cons _ _ _ _ Ht2), !(calls_cons _ _ _ _ Ht). simpl.
      repeat split; auto.
      destruct err as [e|]; [congruence|].
      unfold fd_lookup in *. rewrite Hf2. exact He2.
Qed.

(** C10. When reading the thread's current namespace fails, SwitchTo
    returns that very error, no set-current-namespace call is issued and
    the thread stays in the namespace it was in. *)
Theorem SwitchTo_get_failure s target w h e w1 :
  netns_Get w = ((h, Some e), w1) ->
  SwitchTo s target w = (Some e, w1) /\
  calls is_set w1 = calls is_set w /\
  cur w1 = cur w.
Proof.
  intros Hg. unfold SwitchTo. rewrite Hg. split; [reflexivity|].
  apply netns_Get_spec in Hg as (Hc & _ & _ & Ht & _).
  split; [|exact Hc]. rewrite (calls_cons _ _ _ _ Ht). reflexivity.
Qed.

Lemma SwitchTo_get_failure_witness :
  SwitchTo (mkNSSwitch 3) 4 (two_ns_world [Some EMFILE])
  = (Some (SysError EMFILE), mkWorld 1%nat {[ 3 := 1%nat; 4 := 2%nat ]} ∅ ∅ [] [EvGet]).
Proof.
  apply (SwitchTo_get_failure (mkNSSwitch 3) 4 (two_ns_world [Some EMFILE]) (-1) (SysError EMFILE)).
  reflexivity.
Defined.

(** C5, as amended.  When reading the thread's current namespace succeeds
    and the target handle is open: if it denotes the thread's namespace,
    SwitchTo returns nil, issues no set-current-namespace call and leaves
    the thread where it is; otherwise it issues exactly one such call. *)
Theorem SwitchTo_noop_or_one_set s target w c w1 n :
  netns_Get w = ((c, None), w1) ->
  fd_lookup w target = Some n ->
  exists err w',
    SwitchTo s target w = (err, w') /\
    (n = cur w -> err = None /\ calls is_set w' = calls is_set w /\ cur w' = cur w) /\
    (n <> cur w -> calls is_set w' = S (calls is_set w)).
Proof.
  intros Hg Ht. unfold SwitchTo. rewrite Hg.
  apply netns_Get_spec in Hg as (Hc & _ & _ & Htr & Hk & Hnew & _).
  pose proof (Hk _ _ Ht) as Ht1.
  destruct (Nat.eq_dec n (cur w)) as [->|Hne].
  - rewrite (NsHandle_Equal_same _ _ _ _ Hnew Ht1).
    exists None, w1. split; [reflexivity|]. split; [|tauto].
    intros _. rewrite (calls_cons _ _ _ _ Htr). auto.
  - rewrite (NsHandle_Equal_other c target w1 (cur w) n Hnew Ht1) by congruence.
    destruct (netns_Set target w1) as [err w'] eqn:Es. exists err, w'.
    split; [reflexivity|]. split; [tauto|]. intros _.
    apply netns_Set_spec in Es as (_ & _ & _ & Hts & _).
    rewrite (calls_cons _ _ _ _ Hts), (calls_cons _ _ _ _ Htr). reflexivity.
Qed.

Lemma SwitchTo_noop_or_one_set_witness :
  exists err w',
    SwitchTo (mkNSSwitch 3) 4 (two_ns_world []) = (err, w') /\
    (2%nat = 1%nat -> err = None /\ calls is_set w' = 0%nat /\ cur w' = 1%nat) /\
    (2%nat <> 1%nat -> calls is_set w' = 1%nat).
Proof.
  apply (SwitchTo_noop_or_one_set (mkNSSwitch 3) 4 (two_ns_world []) 5
           (mkWorld 1%nat {[ 3 := 1%nat; 4 := 2%nat; 5 := 1%nat ]} ∅ ∅ [] [EvGet]) 2%nat).
  - vm_compute. reflexivity.
  - reflexivity.
Defined.

(** C5 as the specification words it fails when netns.Get fails: the
    target is the thread's own namespace and SwitchTo returns an error; the
    target is another namespace and no set-current-namespace call is
    issued. *)
Lemma SwitchTo_noop_counterexample :
  let w := two_ns_world [Some EMFILE] in
  (fd_lookup w 3 = Some (cur w) /\
   fst (SwitchTo (mkNSSwitch 3) 3 w) = Some (SysError EMFILE)) /\
  (fd_lookup w 4 = Some 2%nat /\ 2%nat <> cur w /\
   calls is_set (snd (SwitchTo (mkNSSwitch 3) 4 w)) = calls is_set w).
Proof. vm_compute. repeat split; discriminate. Qed.

(** C9. A Close that succeeds leaves -1 in the NetNSHandle field and the
    descriptor released; any later Close of that switcher fails with EBADF
    and releases nothing. *)
Theorem Close_resets_handle s w s' w' :
  nsswitch.Close (Some s) w = (Returned (None, s'), w') ->
  NetNSHandle s' = -1 /\
  fd_lookup w' (NetNSHandle s) = None /\
  forall w2, exists w3,
    nsswitch.Close (Some s') w2 = (Returned (Some (SysError EBADF), s'), w3) /\
    fdtab w3 = fdtab w2.
Proof.
  unfold nsswitch.Close, NsHandle_Close.
  destruct (fd_lookup (emit (EvCloseFd (NetNSHandle s)) w) (NetNSHandle s)) eqn:E;
    [|discriminate].
  intros [= <- <-]. split; [reflexivity|]. split.
  - unfold fd_lookup. simpl. destruct (NetNSHandle s <? 0); [reflexivity|].
    apply lookup_delete_eq.
  - intros w2. eexists. split; reflexivity.
Qed.

Lemma Close_resets_handle_witness :
  NetNSHandle (mkNSSwitch (-1)) = -1 /\
  fd_lookup (mkWorld 1%nat {[ 4 := 2%nat ]} ∅ ∅ [] [EvCloseFd 3]) 3 = None /\
  forall w2, exists w3,
    nsswitch.Close (Some (mkNSSwitch (-1))) w2
    = (Returned (Some (SysError EBADF), mkNSSwitch (-1)), w3) /\
    fdtab w3 = fdtab w2.
Proof.
  apply (Close_resets_handle (mkNSSwitch 3) (two_ns_world [])).
  vm_compute. reflexivity.
Defined.

(* ===================================================================== *)
(** ** Moving an interface *)
(* ===================================================================== *)

Ltac unfold_M := unfold mbind, mret, M_mbind, M_mret, M_bind, M_ret, call, panic.

Lemma netlink_LinkByName_spec name w link err w1 :
  netlink_LinkByName name w = ((link, err), w1) ->
  cur w1 = cur w /\ nspaths w1 = nspaths w /\ links w1 = links w /\
  fdtab w1 = fdtab w /\ trace w1 = EvLinkByName name :: trace w /\
  match link, err with
  | Some l, None => LinkName l = name /\ links w !! (cur w, name) = Some (LinkIndex l)
  | None, Some e => links w !! (cur w, name) = None -> e = LinkNotFound name \/ exists c, e = SysError c
  | _, _ => False
  end.
Proof.
  unfold netlink_LinkByName.
  destruct (take_fault (emit (EvLinkByName name) w)) as [f w0] eqn:Ef.
  apply take_fault_fields in Ef as (Hc & Hf & Hp & Hl & Ht).
  simpl in Hc, Hf, Hp, Hl, Ht. destruct f as [e|].
  - intros [= <- <- <-]. repeat split; eauto.
  - rewrite Hl, Hc. destruct (links w !! (cur w, name)) as [i|] eqn:Ei.
    + intros [= <- <- <-]. repeat split; auto.
    + intros [= <- <- <-]. repeat split; auto.
Qed.

Lemma netlink_LinkSetNsFd_spec link fd w err w1 :
  netlink_LinkSetNsFd link fd w = (err, w1) ->
  cur w1 = cur w /\ nspaths w1 = nspaths w /\ fdtab w1 = fdtab w /\
  trace w1 = EvLinkSetNsFd (LinkName link) fd :: trace w /\
  match err with
  | Some _ => links w1 = links w
  | None =>
    exists n,
      fd_lookup w fd = Some n /\
      links w !! (cur w, LinkName link) = Some (LinkIndex link) /\
      (n <> cur w -> links w !! (n, LinkName link) = None) /\
      links w1 = <[(n, LinkName link) := LinkIndex link]>
                   (delete (cur w, LinkName link) (links w))
  end.
Proof.
  unfold netlink_LinkSetNsFd.
  destruct (take_fault (emit (EvLinkSetNsFd (LinkName link) fd) w)) as [f w0] eqn:Ef.
  apply take_fault_fields in Ef as (Hc & Hf & Hp & Hl & Ht).
  simpl in Hc, Hf, Hp, Hl, Ht. destruct f as [e|].
  { intros [= <- <-]. auto. }
  assert (Hfd : fd_lookup w0 fd = fd_lookup w fd) by (unfold fd_lookup; rewrite Hf; auto).
  rewrite Hfd, Hl, Hc. destruct (fd_lookup w fd) as [n|]; [|intros [= <- <-]; auto].
  destruct (links w !! (cur w, LinkName link)) as [i|] eqn:Ei; [|intros [= <- <-]; auto].
  destruct (Nat.eqb_spec i (LinkIndex link)) as [->|Hi]; simpl;
    [|intros [= <- <-]; auto].
  destruct (Nat.eqb_spec n (cur w)) as [->|Hn]; simpl.
  - intros [= <- <-]. simpl. repeat split; auto.
    exists (cur w). repeat split; auto. congruence.
  - destruct (bool_decide (is_Some (links w !! (n, LinkName link)))) eqn:Eb.
    + intros [= <- <-]. auto.
    + intros [= <- <-]. simpl. repeat split; auto.
      exists n. repeat split; auto. intros _.
      apply bool_decide_eq_false in Eb.
      destruct (links w !! (n, LinkName link)); [exfalso; eauto|reflexivity].
Qed.

(** The body of the move never panics; it changes neither the thread's
    namespace nor the descriptors; it moves the interface exactly when it
    returns nil. *)
Lemma moveLink_spec ifName toNetNS w o w' :
  moveLink ifName toNetNS w = (o, w') ->
  exists r, o = Returned r /\
    cur w' = cur w /\ nspaths w' = nspaths w /\ fdtab w' = fdtab w /\
    calls is_get w' = calls is_get w /\ calls is_set w' = calls is_set w /\
    calls is_next_close w' = calls is_next_close w /\
    match r with
    | Some e =>
      links w' = links w /\
      (links w !! (cur w, ifName) = None ->
       exists c, e = errors_Wrapf c "failed to get net interface: %v" [ArgString ifName])
    | None =>
      exists n i,
        fd_lookup w toNetNS = Some n /\
        links w !! (cur w, ifName) = Some i /\
        (n <> cur w -> links w !! (n, ifName) = None) /\
        links w' = <[(n, ifName) := i]> (delete (cur w, ifName) (links w))
    end.
Proof.
  unfold moveLink. unfold_M.
  destruct (netlink_LinkByName ifName w) as [[link err] w1] eqn:El.
  apply netlink_LinkByName_spec in El as (Hc & Hp & Hl & Hf & Ht & Hr).
  destruct link as [l|], err as [e|]; try contradiction.
  - destruct Hr as [Hn Hi].
    destruct (netlink_LinkSetNsFd l toNetNS w1) as [err w2] eqn:Es.
    apply netlink_LinkSetNsFd_spec in Es as (Hc2 & Hp2 & Hf2 & Ht2 & Hr2).
    assert (Hfd : fd_lookup w1 toNetNS = fd_lookup w toNetNS)
      by (unfold fd_lookup; rewrite Hf; auto).
    rewrite Hn, Hc, Hl, Hfd in *.
    destruct err as [e|]; intros [= <- <-]; eexists; (split; [reflexivity|]);
      rewrite !(calls_cons _ _ _ _ Ht2), !(calls_cons _ _ _ _ Ht); simpl;
      (repeat split; try congruence).
    destruct Hr2 as (n & H1 & H2 & H3 & H4). exists n, (LinkIndex l). auto.
  - intros [= <- <-]. eexists. split; [reflexivity|].
    rewrite !(calls_cons _ _ _ _ Ht). simpl. repeat split; try congruence.
    intros _. eexists. reflexivity.
Qed.

Lemma moveInterface_switch_failed s ifName fromNetNS toNetNS w e w1 :
  SwitchTo s fromNetNS w = (Some e, w1) ->
  moveInterfaceToAnotherNamespace s ifName fromNetNS toNetNS w
  = (Returned (Some (errors_Wrapf e "failed to switch to net NS: %v" [ArgHandle fromNetNS])),
     w1).
Proof.
  intros Hs. unfold moveInterfaceToAnotherNamespace. unfold_M. rewrite Hs. reflexivity.
Qed.

Lemma moveInterface_switched s ifName fromNetNS toNetNS w w1 :
  SwitchTo s fromNetNS w = (None, w1) ->
  moveInterfaceToAnotherNamespace s ifName fromNetNS toNetNS w
  = defer (moveLink ifName toNetNS) (switchBack s) w1.
Proof.
  intros Hs. unfold moveInterfaceToAnotherNamespace. unfold_M. rewrite Hs. reflexivity.
Qed.

Lemma switchBack_eq s w :
  switchBack s w =
  match SwitchTo s (NetNSHandle s) w with
  | (Some err, w1) =>
    (Panicked (PanicError (errors_Wrap err "failed to switch back to the forwarder net NS")),
     w1)
  | (None, w1) => (Returned tt, w1)
  end.
Proof.
  unfold switchBack. unfold_M.
  destruct (SwitchTo s (NetNSHandle s) w) as [[e|] w1]; reflexivity.
Qed.

(** C7. When the initial switch to the source namespace fails, the move
    returns that error, wrapped, and does nothing else: the world is the
    one the failed SwitchTo left, so the thread has not moved, no interface
    was looked up or reassigned, and the one netns.Get of the failed
    SwitchTo is the only one, hence no switch back was attempted. *)
Theorem move_stops_at_failed_switch s ifName fromNetNS toNetNS w e w1 :
  SwitchTo s fromNetNS w = (Some e, w1) ->
  moveInterfaceToAnotherNamespace s ifName fromNetNS toNetNS w
  = (Returned (Some (errors_Wrapf e "failed to switch to net NS: %v" [ArgHandle fromNetNS])),
     w1) /\
  cur w1 = cur w /\
  links w1 = links w /\
  calls is_link_call w1 = calls is_link_call w /\
  calls is_get w1 = S (calls is_get w).
Proof.
  intros Hs. split; [apply moveInterface_switch_failed; exact Hs|].
  apply SwitchTo_spec in Hs as (_ & Hl & _ & Hg & Hlc & _ & Hc). auto.
Qed.

Lemma move_stops_at_failed_switch_witness :
  moveInterfaceToAnotherNamespace (mkNSSwitch 3) "veth0" 4 3 (two_ns_world [None; Some EPERM])
  = (Returned (Some (errors_Wrapf (SysError EPERM) "failed to switch to net NS: %v"
                                  [ArgHandle 4])),
     mkWorld 1%nat {[ 3 := 1%nat; 4 := 2%nat; 5 := 1%nat ]} ∅ ∅ [] [EvSet 4; EvGet]).
Proof.
  apply (move_stops_at_failed_switch (mkNSSwitch 3) "veth0" 4 3
           (two_ns_world [None; Some EPERM]) (SysError EPERM)).
  vm_compute. reflexivity.
Defined.



(** Whatever its outcome, a move keeps the paths and the open descriptors,
    does not delegate, and issues at least one netns.Get. *)
Lemma moveInterface_frame s ifName fromNetNS toNetNS w o w' :
  moveInterfaceToAnotherNamespace s ifName fromNetNS toNetNS w = (o, w') ->
  nspaths w' = nspaths w /\ fds_kept w w' /\
  calls is_next_close w' = calls is_next_close w /\
  (calls is_get w < calls is_get w')%nat.
Proof.
  destruct (SwitchTo s fromNetNS w) as [[e|] w1] eqn:Es.
  - rewrite (moveInterface_switch_failed _ _ _ _ _ _ _ Es). intros [= <- <-].
    apply SwitchTo_spec in Es as (Hp & _ & Hk & Hg & _ & Hn & _).
    repeat split; auto. lia.
  - rewrite (moveInterface_switched _ _ _ _ _ _ Es). unfold defer.
    apply SwitchTo_spec in Es as (Hp & _ & Hk & Hg & _ & Hn & _).
    destruct (moveLink ifName toNetNS w1) as [o1 w2] eqn:Em.
    apply moveLink_spec in Em as (r & -> & _ & Hp2 & Hf2 & Hg2 & _ & Hn2 & _).
    rewrite switchBack_eq.
    destruct (SwitchTo s (NetNSHandle s) w2) as [e3 w3] eqn:Eb.
    apply SwitchTo_spec in Eb as (Hp3 & _ & Hk3 & Hg3 & _ & Hn3 & _).
    assert (Hall : nspaths w3 = nspaths w /\ fds_kept w w3 /\
                   calls is_next_close w3 = calls is_next_close w /\
                   (calls is_get w < calls is_get w3)%nat).
    { split; [congruence|]. split.
      - eapply fds_kept_trans; [exact Hk|].
        eapply fds_kept_trans; [apply fds_kept_of_fdtab; exact Hf2|exact Hk3].
      - split; [congruence|lia]. }
    destruct e3; intros [= <- <-]; exact Hall.
Qed.

(** A move that returns nil has moved the interface from the namespace of
    the source handle to that of the destination handle, and has left the
    thread in the switcher's own namespace. *)
Lemma moveInterface_moved s ifName fromNetNS toNetNS w w' :
  moveInterfaceToAnotherNamespace s ifName fromNetNS toNetNS w = (Returned None, w') ->
  exists F T i,
    (forall F0, fd_lookup w fromNetNS = Some F0 -> F0 = F) /\
    (forall T0, fd_lookup w toNetNS = Some T0 -> T0 = T) /\
    links w !! (F, ifName) = Some i /\
    (T <> F -> links w !! (T, ifName) = None) /\
    links w' = <[(T, ifName) := i]> (delete (F, ifName) (links w)) /\
    fd_lookup w' (NetNSHandle s) = Some (cur w').
Proof.
  destruct (SwitchTo s fromNetNS w) as [[e|] w1] eqn:Es.
  { rewrite (moveInterface_switch_failed _ _ _ _ _ _ _ Es). discriminate. }
  rewrite (moveInterface_switched _ _ _ _ _ _ Es). unfold defer.
  apply SwitchTo_spec in Es as (_ & Hl & Hk & _ & _ & _ & Hfrom).
  destruct (moveLink ifName toNetNS w1) as [o1 w2] eqn:Em.
  apply moveLink_spec in Em as (r & -> & Hc2 & _ & Hf2 & _ & _ & _ & Hr).
  rewrite switchBack_eq.
  destruct (SwitchTo s (NetNSHandle s) w2) as [[e3|] w3] eqn:Eb; [discriminate|].
  intros [= -> <-].
  apply SwitchTo_spec in Eb as (_ & Hl3 & _ & _ & _ & _ & Hhome).
  destruct Hr as (n & i & Hto & Hi & Hfree & Hmv).
  exists (cur w1), n, i. rewrite Hl in *. repeat split; auto.
  - intros F0 HF0. apply Hk in HF0. congruence.
  - intros T0 HT0. apply Hk in HT0. congruence.
  - congruence.
Qed.

(** close(2) releases the descriptor and opens none. *)
Lemma NsHandle_Close_spec h w r w1 :
  NsHandle_Close h w = (r, w1) ->
  cur w1 = cur w /\ nspaths w1 = nspaths w /\ links w1 = links w /\
  trace w1 = EvCloseFd h :: trace w /\
  fd_lookup w1 h = None /\
  (forall k, fd_lookup w k = None -> fd_lookup w1 k = None).
Proof.
  unfold NsHandle_Close. rewrite fd_lookup_emit.
  destruct (fd_lookup w h) as [n|] eqn:E; intros [= <- <-]; simpl.
  - repeat split; auto.
    + unfold fd_lookup. simpl. destruct (h <? 0); [reflexivity|apply lookup_delete_eq].
    + intros k. unfold fd_lookup. simpl. destruct (k <? 0); [reflexivity|].
      intros Hk. rewrite lookup_delete. destruct (decide (h = k)); auto.
  - repeat split; auto.
Qed.

Lemma closeHandles_spec s t w :
  closeHandles (Some s) t w = (Returned tt, released s t w) /\
  cur (released s t w) = cur w /\ nspaths (released s t w) = nspaths w /\
  links (released s t w) = links w /\
  trace (released s t w) = EvCloseFd t :: EvCloseFd (NetNSHandle s) :: trace w /\
  fd_lookup (released s t w) (NetNSHandle s) = None /\
  fd_lookup (released s t w) t = None.
Proof.
  unfold released, closeHandles, nsswitch.Close.
  destruct (NsHandle_Close (NetNSHandle s) w) as [[e h] w1] eqn:E1.
  apply NsHandle_Close_spec in E1 as (Hc & Hp & Hl & Ht & Hh & Hk).
  destruct e; simpl;
    destruct (NsHandle_Close t w1) as [r2 w2] eqn:E2; simpl;
    apply NsHandle_Close_spec in E2 as (Hc2 & Hp2 & Hl2 & Ht2 & Hh2 & Hk2);
    repeat split; auto; congruence.
Qed.

(* ===================================================================== *)
(** ** Acquiring the switcher and the target handle *)
(* ===================================================================== *)

Lemma netns_GetFromPath_spec path w h err w1 :
  netns_GetFromPath path w = ((h, err), w1) ->
  cur w1 = cur w /\ nspaths w1 = nspaths w /\ links w1 = links w /\
  trace w1 = EvGetFromPath path :: trace w /\ fds_kept w w1 /\
  match err with
  | Some _ => True
  | None =>
    path <> ""%string /\
    exists T, nspaths w !! path = Some T /\ fd_lookup w1 h = Some T /\ fd_lookup w h = None
  end.
Proof.
  unfold netns_GetFromPath.
  destruct (take_fault (emit (EvGetFromPath path) w)) as [f w0] eqn:Ef.
  apply take_fault_fields in Ef as (Hc & Hf & Hp & Hl & Ht).
  simpl in Hc, Hf, Hp, Hl, Ht.
  assert (Hk0 : fds_kept w w0) by (apply fds_kept_of_fdtab; exact Hf).
  destruct f as [e|]; [intros [= <- <- <-]; repeat split; auto|].
  destruct (String.eqb_spec path "") as [->|Hne]; [intros [= <- <- <-]; repeat split; auto|].
  rewrite Hp. destruct (nspaths w !! path) as [T|] eqn:ET;
    [|intros [= <- <- <-]; repeat split; auto].
  destruct (open_ns T w0) as [fd w2] eqn:Eo. intros [= <- <- <-].
  apply open_ns_spec in Eo as (Hnew & Hold & Hk & Hc2 & Hp2 & Hl2 & Ht2 & _).
  split; [congruence|]. split; [congruence|]. split; [congruence|].
  split; [congruence|]. split; [eapply fds_kept_trans; eauto|].
  split; [exact Hne|]. exists T. repeat split; auto.
  unfold fd_lookup in *. rewrite <- Hf. exact Hold.
Qed.

(** The acquisition stage touches neither the thread's namespace nor the
    interfaces.  It returns a switcher on the thread's namespace with an
    open handle on the namespace the reference names; or the error of a
    failed NewNSSwitch; or, when the reference cannot be opened, it panics
    in its deferred closure. *)
Lemma initNetNSSwitchAndHandle_spec netNSURL w o w1 :
  initNetNSSwitchAndHandle netNSURL w = (o, w1) ->
  cur w1 = cur w /\ nspaths w1 = nspaths w /\ links w1 = links w /\
  calls is_set w1 = calls is_set w /\
  calls is_link_call w1 = calls is_link_call w /\
  calls is_next_close w1 = calls is_next_close w /\
  (calls is_get w < calls is_get w1)%nat /\
  match o with
  | Returned (Some s, t, None) =>
    netNSURL <> ""%string /\
    fd_lookup w1 (NetNSHandle s) = Some (cur w) /\
    exists T, nspaths w !! netNSURL = Some T /\ fd_lookup w1 t = Some T
  | Returned (None, _, None) => False
  | Returned (_, _, Some e) => AcquisitionError e = true
  | Panicked v => v = NilPointerDereference
  end.
Proof.
  unfold initNetNSSwitchAndHandle, NewNSSwitch. unfold_M.
  destruct (netns_Get w) as [[h e] w0] eqn:Eg.
  apply netns_Get_spec in Eg as (Hc & Hp & Hl & Ht & Hk & He).
  destruct e as [e|].
  - intros [= <- <-]. rewrite !(calls_cons _ _ _ _ Ht). simpl.
    repeat split; auto.
  - destruct He as [Hnew _].
    destruct (netns_GetFromPath netNSURL w0) as [[t e2] w2] eqn:Ep.
    apply netns_GetFromPath_spec in Ep as (Hc2 & Hp2 & Hl2 & Ht2 & Hk2 & He2).
    destruct e2 as [e2|]; simpl; intros [= <- <-];
      rewrite !(calls_cons _ _ _ _ Ht2), !(calls_cons _ _ _ _ Ht); simpl;
      (split; [congruence|]); (split; [congruence|]); (split; [congruence|]);
      repeat split; auto.
    + tauto.
    + destruct He2 as (_ & T & HT & HtT & _). exists T. split; congruence.
Qed.

(** When the target-namespace reference cannot be opened the acquisition
    stage does not return: the return statement has stored nil in the named
    result nsSwitch and the deferred closure calls Close on it. *)
Lemma initNetNSSwitchAndHandle_open_failure netNSURL w s w0 e w1 :
  NewNSSwitch w = ((Some s, None), w0) ->
  netns_GetFromPath netNSURL w0 = ((-1, Some e), w1) ->
  initNetNSSwitchAndHandle netNSURL w = (Panicked NilPointerDereference, w1).
Proof.
  intros Hn Hg. unfold initNetNSSwitchAndHandle. unfold_M.
  rewrite Hn, Hg. reflexivity.
Qed.

(** The empty path cannot be opened. *)
Lemma netns_GetFromPath_empty w h err w1 :
  netns_GetFromPath "" w = ((h, err), w1) -> err <> None.
Proof.
  intros Hg. apply netns_GetFromPath_spec in Hg as (_ & _ & _ & _ & _ & He).
  destruct err; [discriminate|]. destruct He as [Hne _]. contradiction.
Qed.

(* ===================================================================== *)
(** ** The chain element: the paths through Request and Close *)
(* ===================================================================== *)

Section ChainPaths.

Variable next_Request : NetworkServiceRequest -> M (option Connection * option error).
Variable next_Close : Connection -> M (option Empty * option error).

Lemma closeHandles_run s t w :
  closeHandles (Some s) t w = (Returned tt, released s t w).
Proof. apply closeHandles_spec. Qed.

Ltac run_chain :=
  unfold Request, Close, defer, log_Infof, log_Warnf; unfold_M.

Lemma Request_init_error request w p t e w1 :
  initNetNSSwitchAndHandle (url_of (GetConnection request)) w
  = (Returned (p, t, Some e), w1) ->
  Request next_Request request w = (Returned (None, Some e), w1).
Proof. intros Hi. run_chain. unfold url_of in Hi. rewrite Hi. reflexivity. Qed.

Lemma Request_init_panic request w v w1 :
  initNetNSSwitchAndHandle (url_of (GetConnection request)) w = (Panicked v, w1) ->
  Request next_Request request w = (Panicked v, w1).
Proof. intros Hi. run_chain. unfold url_of in Hi. rewrite Hi. reflexivity. Qed.

Lemma Request_move_outcome request w s t w1 o w2 :
  initNetNSSwitchAndHandle (url_of (GetConnection request)) w
  = (Returned (Some s, t, None), w1) ->
  moveInterfaceToAnotherNamespace s (name_of (GetConnection request)) (NetNSHandle s) t w1
  = (o, w2) ->
  match o with
  | Returned (Some e) =>
    Request next_Request request w
    = (Returned (None,
                 Some (errors_Wrapf e
                   "failed to move network interface %s into the Client's namespace"
                   [ArgString (name_of (GetConnection request))])),
       released s t w2)
  | Panicked v => Request next_Request request w = (Panicked v, released s t w2)
  | Returned None => True
  end.
Proof.
  intros Hi Hm. unfold url_of, name_of in *. destruct o as [[e|]|v]; [| exact I |];
    run_chain; rewrite Hi; simpl; rewrite Hm; rewrite closeHandles_run; reflexivity.
Qed.

Lemma Request_delegated request w s t w1 w2 o3 w3 :
  initNetNSSwitchAndHandle (url_of (GetConnection request)) w
  = (Returned (Some s, t, None), w1) ->
  moveInterfaceToAnotherNamespace s (name_of (GetConnection request)) (NetNSHandle s) t w1
  = (Returned None, w2) ->
  next_Server_Request next_Request request (before_next_Request request w2) = (o3, w3) ->
  Request next_Request request w =
  match o3 with
  | Panicked v => (Panicked v, released s t w3)
  | Returned (conn, None) => (Returned (conn, None), released s t w3)
  | Returned (conn, Some e) =>
    match moveInterfaceToAnotherNamespace s (name_of (GetConnection request)) t
                                          (NetNSHandle s) w3 with
    | (Returned r, w4) =>
      (Returned (conn, Some e), released s t (emit (compensation_signal request r) w4))
    | (Panicked v, w4) => (Panicked v, released s t w4)
    end
  end.
Proof.
  intros Hi Hm Hn. unfold before_next_Request, compensation_signal, url_of, name_of in *.
  run_chain. rewrite Hi. simpl. rewrite Hm. simpl. rewrite Hn.
  destruct o3 as [[conn [e|]]|v]; simpl.
  - destruct (moveInterfaceToAnotherNamespace s _ t (NetNSHandle s) w3) as [[[e'|]|v] w4];
      simpl; rewrite closeHandles_run; reflexivity.
  - rewrite closeHandles_run. reflexivity.
  - rewrite closeHandles_run. reflexivity.
Qed.

Lemma Close_init_error conn w p t e w1 :
  initNetNSSwitchAndHandle (url_of conn) w = (Returned (p, t, Some e), w1) ->
  Close next_Close conn w = (Returned (None, Some e), w1).
Proof. intros Hi. run_chain. unfold url_of in Hi. rewrite Hi. reflexivity. Qed.

Lemma Close_init_panic conn w v w1 :
  initNetNSSwitchAndHandle (url_of conn) w = (Panicked v, w1) ->
  Close next_Close conn w = (Panicked v, w1).
Proof. intros Hi. run_chain. unfold url_of in Hi. rewrite Hi. reflexivity. Qed.

Lemma Close_move_outcome conn w s t w1 o w2 :
  initNetNSSwitchAndHandle (url_of conn) w = (Returned (Some s, t, None), w1) ->
  moveInterfaceToAnotherNamespace s (name_of conn) t (NetNSHandle s) w1 = (o, w2) ->
  Close next_Close conn w =
  match o with
  | Returned (Some e) =>
    (Returned (None,
               Some (errors_Wrapf e
                 "failed to move network interface %s into the Forwarder's namespace"
                 [ArgString (name_of conn)])),
     released s t w2)
  | Panicked v => (Panicked v, released s t w2)
  | Returned None =>
    match next_Server_Close next_Close conn (before_next_Close conn w2) with
    | (o3, w3) => (o3, released s t w3)
    end
  end.
Proof.
  intros Hi Hm. unfold before_next_Close, url_of, name_of in *.
  run_chain. rewrite Hi. simpl. rewrite Hm.
  destruct o as [[e|]|v]; simpl; try (rewrite closeHandles_run; reflexivity).
  destruct (next_Server_Close next_Close conn _) as [o3 w3]. rewrite closeHandles_run.
  reflexivity.
Qed.

End ChainPaths.

(* ===================================================================== *)
(** ** The chain element: failure of the switch back, compensation, Close *)
(* ===================================================================== *)

(** C4. Whenever the switch back to the switcher's own namespace fails,
    the move does not return: it panics with that error, wrapped, whatever
    its body returned.  Neither caller recovers: the first move of Request,
    the compensating move of Request and the move of Close all let the
    panic through (after the handles are released). *)
Theorem switch_back_failure_panics
  next_Request next_Close s ifName fromNetNS toNetNS w w1 o w2 e w3 :
  SwitchTo s fromNetNS w = (None, w1) ->
  moveLink ifName toNetNS w1 = (o, w2) ->
  SwitchTo s (NetNSHandle s) w2 = (Some e, w3) ->
  let v := PanicError (errors_Wrap e "failed to switch back to the forwarder net NS") in
  moveInterfaceToAnotherNamespace s ifName fromNetNS toNetNS w = (Panicked v, w3) /\
  (forall request w0,
      initNetNSSwitchAndHandle (url_of (GetConnection request)) w0
      = (Returned (Some s, toNetNS, None), w) ->
      fromNetNS = NetNSHandle s -> ifName = name_of (GetConnection request) ->
      Request next_Request request w0 = (Panicked v, released s toNetNS w3)) /\
  (forall request w0 wa wb conn e',
      initNetNSSwitchAndHandle (url_of (GetConnection request)) w0
      = (Returned (Some s, fromNetNS, None), wa) ->
      moveInterfaceToAnotherNamespace s ifName (NetNSHandle s) fromNetNS wa
      = (Returned None, wb) ->
      next_Server_Request next_Request request (before_next_Request request wb)
      = (Returned (conn, Some e'), w) ->
      toNetNS = NetNSHandle s -> ifName = name_of (GetConnection request) ->
      Request next_Request request w0 = (Panicked v, released s fromNetNS w3)) /\
  (forall conn w0,
      initNetNSSwitchAndHandle (url_of conn) w0 = (Returned (Some s, fromNetNS, None), w) ->
      toNetNS = NetNSHandle s -> ifName = name_of conn ->
      Close next_Close conn w0 = (Panicked v, released s fromNetNS w3)).
Proof.
  intros Hs Hm Hb v.
  assert (Hmove : moveInterfaceToAnotherNamespace s ifName fromNetNS toNetNS w
                  = (Panicked v, w3)).
  { rewrite (moveInterface_switched _ _ _ _ _ _ Hs). unfold defer.
    rewrite Hm, switchBack_eq, Hb. reflexivity. }
  split; [exact Hmove|]. split; [|split].
  - intros request w0 Hi -> ->.
    exact (Request_move_outcome next_Request request w0 _ _ _ _ _ Hi Hmove).
  - intros request w0 wa wb conn e' Hi Hfirst Hnext -> ->.
    rewrite (Request_delegated next_Request request w0 _ _ _ _ _ _ Hi Hfirst Hnext).
    rewrite Hmove. reflexivity.
  - intros conn w0 Hi -> ->.
    rewrite (Close_move_outcome next_Close conn w0 _ _ _ _ _ Hi Hmove). reflexivity.
Qed.

Lemma switch_back_failure_panics_witness :
  moveInterfaceToAnotherNamespace (mkNSSwitch 3) "veth0" 3 4
                                  (veth_world [None; None; None; Some EMFILE])
  = (Panicked (PanicError (errors_Wrap (SysError EMFILE)
                                       "failed to switch back to the forwarder net NS")),
     snd (SwitchTo (mkNSSwitch 3) 3
            (snd (moveLink "veth0" 4
                    (snd (SwitchTo (mkNSSwitch 3) 3
                            (veth_world [None; None; None; Some EMFILE]))))))).
Proof.
  refine (proj1 (switch_back_failure_panics accepting_Request accepting_Close
                   (mkNSSwitch 3) "veth0" 3 4
                   (veth_world [None; None; None; Some EMFILE])
                   (snd (SwitchTo (mkNSSwitch 3) 3 (veth_world [None; None; None; Some EMFILE])))
                   (Returned None) _ (SysError EMFILE) _ _ _ _)).
  - vm_compute. reflexivity.
  - vm_compute. reflexivity.
  - vm_compute. reflexivity.
Defined.

(** C3, as amended.  When the relocation into the target namespace has
    succeeded and the delegation returns an error, the compensating move
    from the target handle to the switcher's handle runs.  If it returns,
    with or without an error, Request returns what the delegation returned,
    the delegation's error included, and the outcome of the compensation
    shows only in the log (a warning or an information line, followed by
    the release of the two handles).  If it panics, Request panics. *)
Theorem Request_compensation next_Request request w s t w1 w2 conn e w3 o w4 :
  initNetNSSwitchAndHandle (url_of (GetConnection request)) w
  = (Returned (Some s, t, None), w1) ->
  moveInterfaceToAnotherNamespace s (name_of (GetConnection request)) (NetNSHandle s) t w1
  = (Returned None, w2) ->
  next_Server_Request next_Request request (before_next_Request request w2)
  = (Returned (conn, Some e), w3) ->
  moveInterfaceToAnotherNamespace s (name_of (GetConnection request)) t (NetNSHandle s) w3
  = (o, w4) ->
  exists w',
    match o with
    | Returned r =>
      Request next_Request request w = (Returned (conn, Some e), w') /\
      trace w' = EvCloseFd t :: EvCloseFd (NetNSHandle s)
                 :: compensation_signal request r :: trace w4
    | Panicked v =>
      Request next_Request request w = (Panicked v, w') /\
      trace w' = EvCloseFd t :: EvCloseFd (NetNSHandle s) :: trace w4
    end.
Proof.
  intros Hi Hm Hn Hc.
  rewrite (Request_delegated next_Request request w _ _ _ _ _ _ Hi Hm Hn), Hc.
  destruct o as [r|v]; eexists; (split; [reflexivity|]).
  - destruct (closeHandles_spec s t (emit (compensation_signal request r) w4))
      as (_ & _ & _ & _ & Ht & _). exact Ht.
  - destruct (closeHandles_spec s t w4) as (_ & _ & _ & _ & Ht & _). exact Ht.
Qed.

Lemma Request_compensation_witness :
  exists w',
    Request refusing_Request (mkRequest conn1) (start_world 1 [])
    = (Returned (None, Some (ChainError "refused")), w') /\
    trace w' = EvCloseFd 1 :: EvCloseFd 0
               :: compensation_signal (mkRequest conn1) None :: trace (stage_compensated []).
Proof.
  apply (Request_compensation refusing_Request (mkRequest conn1) (start_world 1 [])
           (mkNSSwitch 0) 1 (stage_init []) (stage_moved []) None (ChainError "refused")
           (stage_refused []) (Returned None) (stage_compensated []));
    vm_compute; reflexivity.
Defined.

(** C3 as the specification words it fails when the switch back of the
    compensating move fails (here the eleventh fallible call, its
    netns.Get): the relocation had succeeded, the delegation had returned
    an error, and Request panics instead of returning that error. *)
Lemma Request_compensation_counterexample :
  let script := replicate 10 None ++ [Some EMFILE] in
  fst (moveInterfaceToAnotherNamespace (mkNSSwitch 0) "veth0" 0 1 (stage_init script))
  = Returned None /\
  fst (next_Server_Request refusing_Request (mkRequest conn1)
         (before_next_Request (mkRequest conn1) (stage_moved script)))
  = Returned (None, Some (ChainError "refused")) /\
  fst (Request refusing_Request (mkRequest conn1) (start_world 1 script))
  = Panicked (PanicError (errors_Wrap (SysError EMFILE)
                                      "failed to switch back to the forwarder net NS")) /\
  forall x, fst (Request refusing_Request (mkRequest conn1) (start_world 1 script))
            <> Returned x.
Proof. vm_compute. repeat split; discriminate. Qed.

(** C8, as amended.  When the relocation of Close from the target
    namespace back fails and the move returns its error, Close returns that
    error, wrapped; when the move panics (its switch back failed), Close
    panics.  Either way the rest of the chain is not invoked and both the
    switcher's handle and the target handle are released. *)
Theorem Close_relocation_failure next_Close conn w s t w1 o w2 :
  initNetNSSwitchAndHandle (url_of conn) w = (Returned (Some s, t, None), w1) ->
  moveInterfaceToAnotherNamespace s (name_of conn) t (NetNSHandle s) w1 = (o, w2) ->
  o <> Returned None ->
  exists w',
    match o with
    | Returned (Some e) =>
      Close next_Close conn w
      = (Returned (None,
                   Some (errors_Wrapf e
                     "failed to move network interface %s into the Forwarder's namespace"
                     [ArgString (name_of conn)])), w')
    | Panicked v => Close next_Close conn w = (Panicked v, w')
    | Returned None => False
    end /\
    calls is_next_close w' = calls is_next_close w /\
    fd_lookup w' (NetNSHandle s) = None /\
    fd_lookup w' t = None.
Proof.
  intros Hi Hm Hne. exists (released s t w2).
  pose proof (Close_move_outcome next_Close conn w _ _ _ _ _ Hi Hm) as Hrun.
  apply initNetNSSwitchAndHandle_spec in Hi as (_ & _ & _ & _ & _ & Hn1 & _).
  apply moveInterface_frame in Hm as (_ & _ & Hn2 & _).
  destruct (closeHandles_spec s t w2) as (_ & _ & _ & _ & Ht & Hh & Hc).
  assert (Hn3 : calls is_next_close (released s t w2) = calls is_next_close w).
  { unfold calls in *. rewrite Ht. rewrite !filter_cons. simpl.
    destruct (decide (false = true)); [discriminate|]. congruence. }
  destruct o as [[e|]|v]; [| congruence |]; auto.
Qed.

(** conn1 again, with veth0 in the target namespace 2; the lookup of the
    interface fails (fifth fallible call). *)
Lemma Close_relocation_failure_witness :
  exists w',
    Close accepting_Close conn1 (start_world 2 [None; None; None; None; Some ENODEV])
    = (Returned (None,
                 Some (errors_Wrapf
                         (errors_Wrapf (SysError ENODEV) "failed to get net interface: %v"
                                       [ArgString "veth0"])
                         "failed to move network interface %s into the Forwarder's namespace"
                         [ArgString "veth0"])), w') /\
    calls is_next_close w' = 0%nat /\
    fd_lookup w' 0 = None /\
    fd_lookup w' 1 = None.
Proof.
  pose (w := start_world 2 [None; None; None; None; Some ENODEV]).
  apply (Close_relocation_failure accepting_Close conn1 w (mkNSSwitch 0) 1
           (snd (initNetNSSwitchAndHandle (url_of conn1) w))
           (Returned (Some (errors_Wrapf (SysError ENODEV) "failed to get net interface: %v"
                                         [ArgString "veth0"])))
           (snd (moveInterfaceToAnotherNamespace (mkNSSwitch 0) "veth0" 1 0
                   (snd (initNetNSSwitchAndHandle (url_of conn1) w))))).
  - vm_compute. reflexivity.
  - vm_compute. reflexivity.
  - discriminate.
Defined.

(** C8 as the specification words it fails when the relocation fails and
    then the switch back fails too (here the reassignment, sixth fallible
    call, and the netns.Get after it): the interface is still in the target
    namespace 2 and Close panics instead of returning the relocation
    error. *)
Lemma Close_relocation_failure_counterexample :
  let w := start_world 2 [None; None; None; None; None; Some EPERM; Some EMFILE] in
  links (snd (Close accepting_Close conn1 w)) !! (2%nat, "veth0"%string) = Some 7%nat /\
  fst (Close accepting_Close conn1 w)
  = Panicked (PanicError (errors_Wrap (SysError EMFILE)
                                      "failed to switch back to the forwarder net NS")) /\
  forall x, fst (Close accepting_Close conn1 w) <> Returned x.
Proof. vm_compute. repeat split; discriminate. Qed.

(* ===================================================================== *)
(** ** The round trip *)
(* ===================================================================== *)

Section RoundTrip.

Variable next_Request : NetworkServiceRequest -> M (option Connection * option error).
Variable next_Close : Connection -> M (option Empty * option error).

(** The rest of the chain neither moves interfaces, nor leaves the thread
    in another namespace, nor renames namespaces. *)
Hypothesis next_Request_frame : forall request w o w',
  next_Request request w = (o, w') ->
  cur w' = cur w /\ links w' = links w /\ nspaths w' = nspaths w.

Hypothesis next_Close_frame : forall conn w o w',
  next_Close conn w = (o, w') -> links w' = links w.

(** A Request that returns no error has moved the interface from the
    thread's namespace into the one the reference names, and has left the
    thread where it was. *)
Lemma Request_success request w c w1 :
  Request next_Request request w = (Returned (c, None), w1) ->
  exists T i,
    nspaths w !! url_of (GetConnection request) = Some T /\
    links w !! (cur w, name_of (GetConnection request)) = Some i /\
    (T <> cur w -> links w !! (T, name_of (GetConnection request)) = None) /\
    links w1 = <[(T, name_of (GetConnection request)) := i]>
                 (delete (cur w, name_of (GetConnection request)) (links w)) /\
    cur w1 = cur w /\ nspaths w1 = nspaths w.
Proof.
  intros HR.
  destruct (initNetNSSwitchAndHandle (url_of (GetConnection request)) w) as [oi wi] eqn:Ei.
  destruct (initNetNSSwitchAndHandle_spec _ _ _ _ Ei)
    as (Hc & Hp & Hl & _ & _ & _ & _ & Ho).
  destruct oi as [[[p t] [e|]]|v].
  - rewrite (Request_init_error next_Request _ _ _ _ _ _ Ei) in HR. discriminate.
  - destruct p as [s|]; [|contradiction]. destruct Ho as (_ & Hhome & T & HT & Ht).
    destruct (moveInterfaceToAnotherNamespace s (name_of (GetConnection request))
                (NetNSHandle s) t wi) as [om w2] eqn:Em.
    pose proof (Request_move_outcome next_Request _ _ _ _ _ _ _ Ei Em) as Hmo.
    destruct om as [[e|]|v]; [rewrite Hmo in HR; discriminate| |rewrite Hmo in HR; discriminate].
    destruct (next_Server_Request next_Request request (before_next_Request request w2))
      as [o3 w3] eqn:En.
    rewrite (Request_delegated next_Request _ _ _ _ _ _ _ _ Ei Em En) in HR.
    destruct o3 as [[c' [e|]]|v]; [| |discriminate].
    { destruct (moveInterfaceToAnotherNamespace s _ t (NetNSHandle s) w3) as [[r|v] w4];
        discriminate. }
    injection HR as <- <-.
    destruct (moveInterface_moved _ _ _ _ _ _ Em) as (F & T' & i & HF & HT' & Hi & Hfree & Hmv & Hback).
    destruct (moveInterface_frame _ _ _ _ _ _ _ Em) as (Hp2 & Hk2 & _).
    pose proof (HF _ Hhome) as <-. pose proof (HT' _ Ht) as <-.
    apply Hk2 in Hhome.
    unfold next_Server_Request in En. apply next_Request_frame in En as (Hc3 & Hl3 & Hp3).
    simpl in Hc3, Hl3, Hp3.
    destruct (closeHandles_spec s t w3) as (_ & Hc4 & Hp4 & Hl4 & _).
    exists T, i. rewrite <- Hl.
    split; [exact HT|]. split; [exact Hi|]. split; [exact Hfree|].
    split; [congruence|]. split; congruence.
  - rewrite (Request_init_panic next_Request _ _ _ _ Ei) in HR. discriminate.
Qed.

(** A Close that returns no error has moved the interface from the
    namespace the reference names into the thread's namespace. *)
Lemma Close_success conn w r w2 :
  Close next_Close conn w = (Returned (r, None), w2) ->
  exists T i,
    nspaths w !! url_of conn = Some T /\
    links w !! (T, name_of conn) = Some i /\
    links w2 = <[(cur w, name_of conn) := i]> (delete (T, name_of conn) (links w)).
Proof.
  intros HC.
  destruct (initNetNSSwitchAndHandle (url_of conn) w) as [oi wi] eqn:Ei.
  destruct (initNetNSSwitchAndHandle_spec _ _ _ _ Ei)
    as (Hc & Hp & Hl & _ & _ & _ & _ & Ho).
  destruct oi as [[[p t] [e|]]|v].
  - rewrite (Close_init_error next_Close _ _ _ _ _ _ Ei) in HC. discriminate.
  - destruct p as [s|]; [|contradiction]. destruct Ho as (_ & Hhome & T & HT & Ht).
    destruct (moveInterfaceToAnotherNamespace s (name_of conn) t (NetNSHandle s) wi)
      as [om w1] eqn:Em.
    rewrite (Close_move_outcome next_Close _ _ _ _ _ _ _ Ei Em) in HC.
    destruct om as [[e|]|v]; [discriminate| |discriminate].
    destruct (next_Server_Close next_Close conn (before_next_Close conn w1))
      as [o3 w3] eqn:En.
    injection HC as -> <-.
    destruct (moveInterface_moved _ _ _ _ _ _ Em) as (F & T' & i & HF & HT' & Hi & _ & Hmv & _).
    pose proof (HF _ Ht) as <-. pose proof (HT' _ Hhome) as <-.
    unfold next_Server_Close in En. apply next_Close_frame in En. simpl in En.
    destruct (closeHandles_spec s t w3) as (_ & _ & _ & Hl4 & _).
    exists T, i. rewrite <- Hl.
    split; [exact HT|]. split; [exact Hi|]. congruence.
  - rewrite (Close_init_panic next_Close _ _ _ _ Ei) in HC. discriminate.
Qed.

(** C2. After a Request that succeeds the interface is in the target
    namespace (and, when that is another namespace, no longer in the home
    namespace); after a Close of the same connection that succeeds it is in
    the home namespace again, and the interface table is the one Request
    started from.  Home is the namespace of the thread when Request is
    called, the target is the namespace the connection's reference names. *)
Theorem Request_Close_round_trip request w c w1 r w2 :
  Request next_Request request w = (Returned (c, None), w1) ->
  Close next_Close (GetConnection request) w1 = (Returned (r, None), w2) ->
  exists T i,
    nspaths w !! url_of (GetConnection request) = Some T /\
    links w !! (cur w, name_of (GetConnection request)) = Some i /\
    links w1 !! (T, name_of (GetConnection request)) = Some i /\
    (T <> cur w -> links w1 !! (cur w, name_of (GetConnection request)) = None) /\
    links w2 !! (cur w, name_of (GetConnection request)) = Some i /\
    (T <> cur w -> links w2 !! (T, name_of (GetConnection request)) = None) /\
    links w2 = links w.
Proof.
  intros HR HC.
  destruct (Request_success _ _ _ _ HR) as (T & i & HT & Hi & Hfree & Hl1 & Hc1 & Hp1).
  destruct (Close_success _ _ _ _ HC) as (T' & i' & HT' & Hi' & Hl2).
  rewrite Hp1, HT in HT'. injection HT' as <-.
  rewrite Hc1 in Hl2.
  set (n := name_of (GetConnection request)) in *.
  assert (Hin : links w1 !! (T, n) = Some i) by (rewrite Hl1; apply lookup_insert_eq).
  assert (i' = i) as -> by congruence.
  exists T, i. split; [exact HT|]. split; [exact Hi|]. split; [exact Hin|].
  split.
  { intros Hne. rewrite Hl1, lookup_insert_ne by congruence. apply lookup_delete_eq. }
  split; [rewrite Hl2; apply lookup_insert_eq|].
  split.
  { intros Hne. rewrite Hl2, lookup_insert_ne by congruence. apply lookup_delete_eq. }
  rewrite Hl2, Hl1. apply map_eq. intros k.
  destruct (decide (k = (cur w, n))) as [->|Hk1].
  - rewrite lookup_insert_eq. symmetry. exact Hi.
  - rewrite lookup_insert_ne by congruence.
    destruct (decide (k = (T, n))) as [->|Hk2].
    + rewrite lookup_delete_eq. symmetry. apply Hfree. congruence.
    + rewrite lookup_delete_ne, lookup_insert_ne, lookup_delete_ne by congruence.
      reflexivity.
Qed.

End RoundTrip.

Lemma accepting_Request_frame request w o w' :
  accepting_Request request w = (o, w') ->
  cur w' = cur w /\ links w' = links w /\ nspaths w' = nspaths w.
Proof. intros [= <- <-]. auto. Qed.

Lemma accepting_Close_frame conn w o w' :
  accepting_Close conn w = (o, w') -> links w' = links w.
Proof. intros [= <- <-]. auto. Qed.

Lemma Request_Close_round_trip_witness :
  let w := start_world 1 [] in
  let w1 := snd (Request accepting_Request (mkRequest conn1) w) in
  let w2 := snd (Close accepting_Close conn1 w1) in
  exists T i,
    nspaths w !! "/var/run/netns/client1"%string = Some T /\
    links w !! (1%nat, "veth0"%string) = Some i /\
    links w1 !! (T, "veth0"%string) = Some i /\
    (T <> 1%nat -> links w1 !! (1%nat, "veth0"%string) = None) /\
    links w2 !! (1%nat, "veth0"%string) = Some i /\
    (T <> 1%nat -> links w2 !! (T, "veth0"%string) = None) /\
    links w2 = links w.
Proof.
  intros w w1 w2.
  apply (Request_Close_round_trip accepting_Request accepting_Close
           accepting_Request_frame accepting_Close_frame
           (mkRequest conn1) w (Some conn1) w1 (Some tt) w2).
  - vm_compute. reflexivity.
  - vm_compute. reflexivity.
Defined.

(* ===================================================================== *)
(** ** Missing or empty mechanism parameters *)
(* ===================================================================== *)

Lemma released_calls p s t w :
  (forall h, p (EvCloseFd h) = false) ->
  calls p (released s t w) = calls p w.
Proof.
  intros Hp. destruct (closeHandles_spec s t w) as (_ & _ & _ & _ & Ht & _).
  unfold calls. rewrite Ht, !filter_cons, !Hp.
  destruct (decide (false = true)); [discriminate|reflexivity].
Qed.

(** With an empty reference the acquisition stage cannot hand out a target
    handle, and it issues neither a switch nor an interface call. *)
Lemma empty_reference_no_relocation url w o w1 :
  url = ""%string ->
  initNetNSSwitchAndHandle url w = (o, w1) ->
  (calls is_set w1 = calls is_set w /\ calls is_link_call w1 = calls is_link_call w /\
   links w1 = links w /\ cur w1 = cur w) /\
  match o with
  | Returned (Some _, _, None) | Returned (None, _, None) => False
  | _ => True
  end.
Proof.
  intros -> Hi.
  apply initNetNSSwitchAndHandle_spec in Hi as (Hc & _ & Hl & Hs & Hlc & _ & _ & Ho).
  split; [auto|]. destruct o as [[[[s|] t] [e|]]|v]; auto. destruct Ho as [Hne _]. auto.
Qed.

(** A move of an interface that does not exist does not return nil. *)
Lemma moveInterface_no_link s ifName fromNetNS toNetNS w o w' :
  (forall ns, links w !! (ns, ifName) = None) ->
  moveInterfaceToAnotherNamespace s ifName fromNetNS toNetNS w = (o, w') ->
  o <> Returned None.
Proof.
  intros Hno Hm ->. apply moveInterface_moved in Hm as (F & _ & i & _ & _ & Hi & _).
  rewrite Hno in Hi. discriminate.
Qed.

(** C6, as amended.  With a missing or empty target-namespace reference,
    Request and Close attempt no relocation: they issue no
    set-current-namespace call, no interface lookup and no reassignment,
    and leave the interfaces and the thread's namespace as they were.  A
    missing or empty interface name is not checked: once the switcher and
    the target handle are acquired the relocation is attempted with the
    empty name (the netns.Get of its first SwitchTo is issued); no
    interface has that name, so the operation does not succeed, and an
    error it returns is the error of the relocation, wrapped, which is not
    an error of the acquisition stage. *)
Theorem unchecked_parameters next_Request next_Close :
  (forall request w o w',
      url_of (GetConnection request) = ""%string ->
      Request next_Request request w = (o, w') ->
      calls is_set w' = calls is_set w /\ calls is_link_call w' = calls is_link_call w /\
      links w' = links w /\ cur w' = cur w) /\
  (forall conn w o w',
      url_of conn = ""%string ->
      Close next_Close conn w = (o, w') ->
      calls is_set w' = calls is_set w /\ calls is_link_call w' = calls is_link_call w /\
      links w' = links w /\ cur w' = cur w) /\
  (forall request w s t w1 o w',
      name_of (GetConnection request) = ""%string ->
      (forall ns, links w !! (ns, ""%string) = None) ->
      initNetNSSwitchAndHandle (url_of (GetConnection request)) w
      = (Returned (Some s, t, None), w1) ->
      Request next_Request request w = (o, w') ->
      (calls is_get w1 < calls is_get w')%nat /\
      match o with
      | Returned (_, None) => False
      | Returned (_, Some e) =>
        AcquisitionError e = false /\
        exists e0, e = errors_Wrapf e0
                         "failed to move network interface %s into the Client's namespace"
                         [ArgString ""]
      | Panicked _ => True
      end) /\
  (forall conn w s t w1 o w',
      name_of conn = ""%string ->
      (forall ns, links w !! (ns, ""%string) = None) ->
      initNetNSSwitchAndHandle (url_of conn) w = (Returned (Some s, t, None), w1) ->
      Close next_Close conn w = (o, w') ->
      (calls is_get w1 < calls is_get w')%nat /\
      match o with
      | Returned (_, None) => False
      | Returned (_, Some e) =>
        AcquisitionError e = false /\
        exists e0, e = errors_Wrapf e0
                         "failed to move network interface %s into the Forwarder's namespace"
                         [ArgString ""]
      | Panicked _ => True
      end).
Proof.
  split; [|split; [|split]].
  - intros request w o w' Hu HR.
    destruct (initNetNSSwitchAndHandle (url_of (GetConnection request)) w)
      as [oi wi] eqn:Ei.
    destruct (empty_reference_no_relocation _ _ _ _ Hu Ei) as [Hframe Ho].
    destruct oi as [[[p t] [e|]]|v].
    + rewrite (Request_init_error next_Request _ _ _ _ _ _ Ei) in HR.
      injection HR as <- <-. exact Hframe.
    + destruct p; contradiction.
    + rewrite (Request_init_panic next_Request _ _ _ _ Ei) in HR.
      injection HR as <- <-. exact Hframe.
  - intros conn w o w' Hu HC.
    destruct (initNetNSSwitchAndHandle (url_of conn) w) as [oi wi] eqn:Ei.
    destruct (empty_reference_no_relocation _ _ _ _ Hu Ei) as [Hframe Ho].
    destruct oi as [[[p t] [e|]]|v].
    + rewrite (Close_init_error next_Close _ _ _ _ _ _ Ei) in HC.
      injection HC as <- <-. exact Hframe.
    + destruct p; contradiction.
    + rewrite (Close_init_panic next_Close _ _ _ _ Ei) in HC.
      injection HC as <- <-. exact Hframe.
  - intros request w s t w1 o w' Hname Hno Hi HR.
    destruct (moveInterfaceToAnotherNamespace s (name_of (GetConnection request))
                (NetNSHandle s) t w1) as [om w2] eqn:Em.
    pose proof (Request_move_outcome next_Request _ _ _ _ _ _ _ Hi Em) as Hmo.
    apply initNetNSSwitchAndHandle_spec in Hi as (_ & _ & Hl & _).
    assert (Hne : om <> Returned None).
    { eapply moveInterface_no_link; [|exact Em]. intros ns. rewrite Hl, Hname. apply Hno. }
    apply moveInterface_frame in Em as (_ & _ & _ & Hg).
    destruct om as [[e|]|v]; [| congruence |]; rewrite Hmo in HR; injection HR as <- <-;
      rewrite released_calls by reflexivity; (split; [exact Hg|]); [|exact I].
    split; [reflexivity|]. rewrite Hname. eexists. reflexivity.
  - intros conn w s t w1 o w' Hname Hno Hi HC.
    destruct (moveInterfaceToAnotherNamespace s (name_of conn) t (NetNSHandle s) w1)
      as [om w2] eqn:Em.
    rewrite (Close_move_outcome next_Close _ _ _ _ _ _ _ Hi Em) in HC.
    apply initNetNSSwitchAndHandle_spec in Hi as (_ & _ & Hl & _).
    assert (Hne : om <> Returned None).
    { eapply moveInterface_no_link; [|exact Em]. intros ns. rewrite Hl, Hname. apply Hno. }
    apply moveInterface_frame in Em as (_ & _ & _ & Hg).
    destruct om as [[e|]|v]; [| congruence |]; injection HC as <- <-;
      rewrite released_calls by reflexivity; (split; [exact Hg|]); [|exact I].
    split; [reflexivity|]. rewrite Hname. eexists. reflexivity.
Qed.

Lemma unchecked_parameters_witness :
  (calls is_set (snd (Request accepting_Request (mkRequest conn_no_reference)
                        (start_world 1 [])))
   = 0%nat /\
   links (snd (Request accepting_Request (mkRequest conn_no_reference) (start_world 1 [])))
   = links (start_world 1 [])) /\
  (calls is_get (stage_init []) < calls is_get
     (snd (Close accepting_Close conn_no_name (start_world 1 []))))%nat.
Proof.
  destruct (unchecked_parameters accepting_Request accepting_Close)
    as (HA & _ & _ & HB).
  split.
  - destruct (HA (mkRequest conn_no_reference) (start_world 1 []) _ _
                eq_refl (surjective_pairing _)) as (Hs & _ & Hl & _).
    split; [exact Hs|exact Hl].
  - refine (proj1 (HB conn_no_name (start_world 1 []) (mkNSSwitch 0) 1 (stage_init [])
                      _ _ eq_refl _ _ (surjective_pairing _))).
    + intros ns. apply lookup_singleton_ne. intros Heq. discriminate Heq.
    + vm_compute. reflexivity.
Defined.

(** C6 as the specification words it fails on an empty interface name:
    Close switches into the target namespace and back (two
    set-current-namespace calls), looks the empty name up, and returns the
    wrapped lookup error, which is not an error of the acquisition stage. *)
Lemma unchecked_parameters_counterexample :
  let conn := mkConnection "conn-1" (mkMechanism (Some "/var/run/netns/client1"%string)
                                                 (Some ""%string)) in
  let run := Close accepting_Close conn (start_world 2 []) in
  name_of conn = ""%string /\
  fst run = Returned (None,
                      Some (errors_Wrapf
                              (errors_Wrapf (LinkNotFound "") "failed to get net interface: %v"
                                            [ArgString ""])
                              "failed to move network interface %s into the Forwarder's namespace"
                              [ArgString ""])) /\
  AcquisitionError
    (errors_Wrapf (errors_Wrapf (LinkNotFound "") "failed to get net interface: %v"
                                [ArgString ""])
                  "failed to move network interface %s into the Forwarder's namespace"
                  [ArgString ""]) = false /\
  calls is_set (snd run) = 2%nat /\
  calls is_link_call (snd run) = 1%nat.
Proof. vm_compute. repeat split. Qed.

(** What the code does on a reference that cannot be opened: Request does
    not return the error of the acquisition stage; it panics on the nil
    switcher, and the handle NewNSSwitch opened (descriptor 0) stays
    open. *)
Example Request_without_reference :
  let run := Request accepting_Request (mkRequest conn_no_reference) (start_world 1 []) in
  fst run = Panicked NilPointerDereference /\
  fd_lookup (snd run) 0 = Some 1%nat /\
  rev (trace (snd run)) = [EvGet; EvGetFromPath ""].
Proof. vm_compute. repeat split. Qed.

(* ===================================================================== *)
(** ** More on the namespace switcher *)
(* ===================================================================== *)

(** netns.Get opens exactly one descriptor when it succeeds and none when
    it fails. *)
Lemma netns_Get_size w h err w1 :
  netns_Get w = ((h, err), w1) ->
  size (fdtab w1) = match err with
                    | Some _ => size (fdtab w)
                    | None => S (size (fdtab w))
                    end.
Proof.
  unfold netns_Get. destruct (take_fault (emit EvGet w)) as [f w0] eqn:Ef.
  apply take_fault_fields in Ef as (_ & Hf & _). simpl in Hf.
  destruct f as [e|].
  - intros [= <- <- <-]. congruence.
  - unfold open_ns. intros [= <- <- <-]. simpl. rewrite Hf.
    apply map_size_insert_None, fresh_fd_unused.
Qed.

(** X1. NewNSSwitch touches neither the thread's namespace nor the
    interfaces and closes nothing.  When it succeeds the switcher's handle
    is a descriptor that was not open before and denotes the namespace the
    thread is in; when it fails there is no switcher and no descriptor has
    been opened. *)
Theorem NewNSSwitch_captures_current w p err w' :
  NewNSSwitch w = ((p, err), w') ->
  cur w' = cur w /\ links w' = links w /\ nspaths w' = nspaths w /\ fds_kept w w' /\
  match p, err with
  | Some s, None =>
    fd_lookup w (NetNSHandle s) = None /\ fd_lookup w' (NetNSHandle s) = Some (cur w)
  | None, Some _ => fdtab w' = fdtab w
  | _, _ => False
  end.
Proof.
  unfold NewNSSwitch. destruct (netns_Get w) as [[h e] w1] eqn:Eg.
  apply netns_Get_spec in Eg as (Hc & Hp & Hl & _ & Hk & He).
  destruct e as [e|]; intros [= <- <- <-]; repeat split; auto; tauto.
Qed.

Lemma NewNSSwitch_captures_current_witness :
  fd_lookup (two_ns_world []) 5 = None /\
  fd_lookup (snd (NewNSSwitch (two_ns_world []))) 5 = Some 1%nat.
Proof.
  refine (proj2 (proj2 (proj2 (proj2
    (NewNSSwitch_captures_current (two_ns_world []) (Some (mkNSSwitch 5)) None
       (snd (NewNSSwitch (two_ns_world []))) _))))).
  vm_compute. reflexivity.
Defined.

(** X2. A SwitchTo that returns nil has put the thread in the namespace
    the target handle denotes, whether it had to call netns.Set or not, and
    has left the interfaces alone. *)
Theorem SwitchTo_reaches_target s target w n w' :
  fd_lookup w target = Some n ->
  SwitchTo s target w = (None, w') ->
  cur w' = n /\ links w' = links w /\ nspaths w' = nspaths w.
Proof.
  intros Ht Hs. apply SwitchTo_spec in Hs as (Hp & Hl & Hk & _ & _ & _ & Hc).
  apply Hk in Ht. split; [congruence|auto].
Qed.

Lemma SwitchTo_reaches_target_witness :
  cur (snd (SwitchTo (mkNSSwitch 3) 4 (two_ns_world []))) = 2%nat /\
  links (snd (SwitchTo (mkNSSwitch 3) 4 (two_ns_world []))) = links (two_ns_world []) /\
  nspaths (snd (SwitchTo (mkNSSwitch 3) 4 (two_ns_world []))) = nspaths (two_ns_world []).
Proof.
  apply (SwitchTo_reaches_target (mkNSSwitch 3) 4 (two_ns_world []) 2%nat).
  - reflexivity.
  - vm_compute. reflexivity.
Defined.

(** X3. A SwitchTo that returns an error, from netns.Get or from
    netns.Set, has not moved the thread; it has issued at most one
    set-current-namespace call and no interface call. *)
Theorem SwitchTo_error_stays s target w e w' :
  SwitchTo s target w = (Some e, w') ->
  cur w' = cur w /\ links w' = links w /\
  (calls is_set w' <= S (calls is_set w))%nat /\
  calls is_link_call w' = calls is_link_call w.
Proof.
  intros Hs. pose proof (SwitchTo_spec _ _ _ _ _ Hs) as (_ & Hl & _ & _ & Hlc & _ & Hc).
  split; [exact Hc|]. split; [exact Hl|]. split; [|exact Hlc].
  unfold SwitchTo in Hs. destruct (netns_Get w) as [[c e0] w1] eqn:Eg.
  apply netns_Get_spec in Eg as (_ & _ & _ & Ht & _).
  destruct e0 as [e0|].
  - injection Hs as _ <-. rewrite (calls_cons _ _ _ _ Ht). simpl. lia.
  - destruct (NsHandle_Equal c target w1); [discriminate|].
    apply netns_Set_spec in Hs as (_ & _ & _ & Ht2 & _).
    rewrite (calls_cons _ _ _ _ Ht2), (calls_cons _ _ _ _ Ht). simpl. lia.
Qed.

Lemma SwitchTo_error_stays_witness :
  cur (snd (SwitchTo (mkNSSwitch 3) 4 (two_ns_world [None; Some EPERM]))) = 1%nat /\
  links (snd (SwitchTo (mkNSSwitch 3) 4 (two_ns_world [None; Some EPERM])))
  = links (two_ns_world [None; Some EPERM]) /\
  (calls is_set (snd (SwitchTo (mkNSSwitch 3) 4 (two_ns_world [None; Some EPERM])))
   <= 1)%nat /\
  calls is_link_call (snd (SwitchTo (mkNSSwitch 3) 4 (two_ns_world [None; Some EPERM])))
  = 0%nat.
Proof.
  apply (SwitchTo_error_stays (mkNSSwitch 3) 4 (two_ns_world [None; Some EPERM])
           (SysError EPERM)).
  vm_compute. reflexivity.
Defined.

(** X4. SwitchTo never closes the handle it obtains from netns.Get:
    whenever that call succeeds, the descriptor it returned is still open
    on the namespace the thread was in, and one more descriptor is open
    after SwitchTo than before, whatever SwitchTo returns. *)
Theorem SwitchTo_keeps_descriptor s target w c w1 err w' :
  netns_Get w = ((c, None), w1) ->
  SwitchTo s target w = (err, w') ->
  fd_lookup w c = None /\
  fd_lookup w' c = Some (cur w) /\
  size (fdtab w') = S (size (fdtab w)).
Proof.
  intros Hg Hs. unfold SwitchTo in Hs. rewrite Hg in Hs.
  pose proof (netns_Get_size _ _ _ _ Hg) as Hsz. simpl in Hsz.
  apply netns_Get_spec in Hg as (_ & _ & _ & _ & _ & Hnew & Hold).
  split; [exact Hold|].
  destruct (NsHandle_Equal c target w1).
  - injection Hs as _ <-. auto.
  - apply netns_Set_spec in Hs as (_ & _ & Hf & _).
    unfold fd_lookup in *. rewrite Hf. auto.
Qed.

Lemma SwitchTo_keeps_descriptor_witness :
  fd_lookup (two_ns_world []) 5 = None /\
  fd_lookup (snd (SwitchTo (mkNSSwitch 3) 4 (two_ns_world []))) 5 = Some 1%nat /\
  size (fdtab (snd (SwitchTo (mkNSSwitch 3) 4 (two_ns_world [])))) = 3%nat.
Proof.
  apply (SwitchTo_keeps_descriptor (mkNSSwitch 3) 4 (two_ns_world []) 5
           (snd (netns_Get (two_ns_world []))) None).
  - vm_compute. reflexivity.
  - vm_compute. reflexivity.
Defined.

(** X5. Close of a switcher touches no descriptor but the switcher's own.
    When it returns an error the handle was not an open descriptor, the
    NetNSHandle field keeps its value (it is not reset to -1) and the
    descriptor table is unchanged. *)
Theorem Close_only_own_handle s w err s' w' :
  nsswitch.Close (Some s) w = (Returned (err, s'), w') ->
  (forall k, k <> NetNSHandle s -> fd_lookup w' k = fd_lookup w k) /\
  cur w' = cur w /\ links w' = links w /\
  (err <> None -> s' = s /\ fdtab w' = fdtab w /\ fd_lookup w (NetNSHandle s) = None).
Proof.
  unfold nsswitch.Close, NsHandle_Close. rewrite fd_lookup_emit.
  destruct (fd_lookup w (NetNSHandle s)) as [n|] eqn:E; intros [= <- <- <-]; simpl.
  - split; [|split; [reflexivity|split; [reflexivity|congruence]]].
    intros k Hk. unfold fd_lookup. simpl. destruct (k <? 0); [reflexivity|].
    apply lookup_delete_ne. congruence.
  - repeat split; auto. destruct s. reflexivity.
Qed.

Lemma Close_only_own_handle_witness :
  (forall k, k <> 7 -> fd_lookup (snd (nsswitch.Close (Some (mkNSSwitch 7)) (two_ns_world []))) k
                       = fd_lookup (two_ns_world []) k) /\
  cur (snd (nsswitch.Close (Some (mkNSSwitch 7)) (two_ns_world []))) = 1%nat /\
  links (snd (nsswitch.Close (Some (mkNSSwitch 7)) (two_ns_world []))) = ∅ /\
  (Some (SysError EBADF) <> None ->
   mkNSSwitch 7 = mkNSSwitch 7 /\
   fdtab (snd (nsswitch.Close (Some (mkNSSwitch 7)) (two_ns_world [])))
   = fdtab (two_ns_world []) /\
   fd_lookup (two_ns_world []) 7 = None).
Proof.
  apply (Close_only_own_handle (mkNSSwitch 7) (two_ns_world []) (Some (SysError EBADF))
           (mkNSSwitch 7)).
  vm_compute. reflexivity.
Defined.

(* ===================================================================== *)
(** ** More on moving an interface *)
(* ===================================================================== *)


(** The body of the move leaves every interface of another name alone. *)
Lemma moveLink_other_names ifName toNetNS w o w' ns name :
  moveLink ifName toNetNS w = (o, w') ->
  name <> ifName -> links w' !! (ns, name) = links w !! (ns, name).
Proof.
  intros Hm Hne. apply moveLink_spec in Hm as (r & _ & _ & _ & _ & _ & _ & _ & Hr).
  destruct r as [e|].
  - destruct Hr as [-> _]. reflexivity.
  - destruct Hr as (n & i & _ & _ & _ & ->).
    rewrite lookup_insert_ne, lookup_delete_ne by congruence. reflexivity.
Qed.

(** Every run of the move is a SwitchTo that failed, or a SwitchTo that
    succeeded followed by the body and the switch back. *)
Lemma moveInterface_cases s ifName fromNetNS toNetNS w o w' :
  moveInterfaceToAnotherNamespace s ifName fromNetNS toNetNS w = (o, w') ->
  (exists e, SwitchTo s fromNetNS w = (Some e, w') /\
             o = Returned (Some (errors_Wrapf e "failed to switch to net NS: %v"
                                              [ArgHandle fromNetNS])))
  \/
  (exists w1 r w2 back,
      SwitchTo s fromNetNS w = (None, w1) /\
      moveLink ifName toNetNS w1 = (Returned r, w2) /\
      SwitchTo s (NetNSHandle s) w2 = (back, w') /\
      o = match back with
          | Some e =>
            Panicked (PanicError
                        (errors_Wrap e "failed to switch back to the forwarder net NS"))
          | None => Returned r
          end).
Proof.
  destruct (SwitchTo s fromNetNS w) as [[e|] w1] eqn:Es.
  - rewrite (moveInterface_switch_failed _ _ _ _ _ _ _ Es). intros [= <- <-].
    left. exists e. auto.
  - rewrite (moveInterface_switched _ _ _ _ _ _ Es). unfold defer.
    destruct (moveLink ifName toNetNS w1) as [o1 w2] eqn:Em.
    destruct (moveLink_spec _ _ _ _ _ Em) as (r & -> & _).
    rewrite switchBack_eq.
    destruct (SwitchTo s (NetNSHandle s) w2) as [back w3] eqn:Eb.
    intros Hrun. right. exists w1, r, w2, back.
    destruct back; injection Hrun as <- <-; auto.
Qed.



(** X7. A move that returns an error has moved no interface: the
    interface table is the one it started from. *)
Theorem move_error_keeps_interfaces s ifName fromNetNS toNetNS w e w' :
  moveInterfaceToAnotherNamespace s ifName fromNetNS toNetNS w = (Returned (Some e), w') ->
  links w' = links w /\ nspaths w' = nspaths w.
Proof.
  intros Hm. pose proof (moveInterface_frame _ _ _ _ _ _ _ Hm) as (Hp & _).
  split; [|exact Hp].
  destruct (moveInterface_cases _ _ _ _ _ _ _ Hm) as [(e1 & Hs & _)|(w1 & r & w2 & back & Hs & Hb & Hr & Ho)].
  - apply SwitchTo_spec in Hs as (_ & Hl & _). exact Hl.
  - destruct back as [eb|]; [discriminate|]. injection Ho as <-.
    apply SwitchTo_spec in Hs as (_ & Hl1 & _).
    apply SwitchTo_spec in Hr as (_ & Hl3 & _).
    apply moveLink_spec in Hb as (r' & [= <-] & _ & _ & _ & _ & _ & _ & Hl2 & _).
    congruence.
Qed.

Lemma move_error_keeps_interfaces_witness :
  links (snd (moveInterfaceToAnotherNamespace (mkNSSwitch 3) "veth0" 3 4
                (veth_world [None; None; Some EPERM])))
  = links (veth_world [None; None; Some EPERM]) /\
  nspaths (snd (moveInterfaceToAnotherNamespace (mkNSSwitch 3) "veth0" 3 4
                  (veth_world [None; None; Some EPERM])))
  = nspaths (veth_world [None; None; Some EPERM]).
Proof.
  apply (move_error_keeps_interfaces (mkNSSwitch 3) "veth0" 3 4
           (veth_world [None; None; Some EPERM])
           (errors_Wrapf (SysError EPERM) "failed to move net interface to net NS: %v %v"
                         [ArgString "veth0"; ArgHandle 4])).
  vm_compute. reflexivity.
Defined.

(** X8. Whatever its outcome, a return or a panic, a move leaves the
    interfaces of every other name where they are, closes no descriptor and
    renames no namespace. *)
Theorem move_touches_one_name s ifName fromNetNS toNetNS w o w' :
  moveInterfaceToAnotherNamespace s ifName fromNetNS toNetNS w = (o, w') ->
  (forall ns name, name <> ifName -> links w' !! (ns, name) = links w !! (ns, name)) /\
  fds_kept w w' /\ nspaths w' = nspaths w.
Proof.
  intros Hm. pose proof (moveInterface_frame _ _ _ _ _ _ _ Hm) as (Hp & Hk & _).
  split; [|auto]. intros ns name Hne.
  destruct (moveInterface_cases _ _ _ _ _ _ _ Hm) as [(e1 & Hs & _)|(w1 & r & w2 & back & Hs & Hb & Hr & _)].
  - apply SwitchTo_spec in Hs as (_ & -> & _). reflexivity.
  - apply SwitchTo_spec in Hs as (_ & Hl1 & _).
    apply SwitchTo_spec in Hr as (_ & Hl3 & _).
    rewrite Hl3, (moveLink_other_names _ _ _ _ _ ns name Hb Hne), Hl1. reflexivity.
Qed.

Lemma move_touches_one_name_witness :
  (forall ns name, name <> "veth0"%string ->
     links (snd (moveInterfaceToAnotherNamespace (mkNSSwitch 3) "veth0" 3 4 (veth_world [])))
       !! (ns, name) = links (veth_world []) !! (ns, name)) /\
  fds_kept (veth_world [])
           (snd (moveInterfaceToAnotherNamespace (mkNSSwitch 3) "veth0" 3 4 (veth_world []))) /\
  nspaths (snd (moveInterfaceToAnotherNamespace (mkNSSwitch 3) "veth0" 3 4 (veth_world [])))
  = nspaths (veth_world []).
Proof.
  apply (move_touches_one_name (mkNSSwitch 3) "veth0" 3 4 (veth_world [])
           (fst (moveInterfaceToAnotherNamespace (mkNSSwitch 3) "veth0" 3 4 (veth_world [])))).
  apply surjective_pairing.
Defined.



(* ===================================================================== *)
(** ** More on the acquisition stage *)
(* ===================================================================== *)






(** X12. The only error the acquisition stage ever returns is that of a
    failed NewNSSwitch, wrapped by "failed to init net NS switch": it comes
    with a nil switcher and the handle -1, no descriptor has been opened
    and the reference has not been looked at. *)
Theorem initNetNSSwitchAndHandle_error netNSURL w p t e w' :
  initNetNSSwitchAndHandle netNSURL w = (Returned (p, t, Some e), w') ->
  p = None /\ t = -1 /\
  (exists c, e = errors_Wrap c "failed to init net NS switch") /\
  fdtab w' = fdtab w /\
  calls is_path_open w' = calls is_path_open w.
Proof.
  unfold initNetNSSwitchAndHandle, NewNSSwitch. unfold_M.
  destruct (netns_Get w) as [[h e0] w0] eqn:Eg.
  apply netns_Get_spec in Eg as (_ & _ & _ & Ht & _ & He).
  destruct e0 as [e0|].
  - intros [= <- <- <- <-]. destruct He as [_ Hf].
    repeat split; eauto. rewrite (calls_cons _ _ _ _ Ht). reflexivity.
  - destruct (netns_GetFromPath netNSURL w0) as [[t' e2] w2].
    destruct e2; simpl; discriminate.
Qed.

Lemma initNetNSSwitchAndHandle_error_witness :
  None = @None NSSwitch /\ -1 = -1 /\
  (exists c, errors_Wrap (SysError EMFILE) "failed to init net NS switch"
             = errors_Wrap c "failed to init net NS switch") /\
  fdtab (snd (initNetNSSwitchAndHandle (url_of conn1) (start_world 1 [Some EMFILE])))
  = fdtab (start_world 1 [Some EMFILE]) /\
  calls is_path_open (snd (initNetNSSwitchAndHandle (url_of conn1)
                             (start_world 1 [Some EMFILE])))
  = calls is_path_open (start_world 1 [Some EMFILE]).
Proof.
  apply (initNetNSSwitchAndHandle_error (url_of conn1) (start_world 1 [Some EMFILE])).
  vm_compute. reflexivity.
Defined.

(* ===================================================================== *)
(** ** More on Request and Close *)
(* ===================================================================== *)

(** A move that returns, called by a thread that is in the namespace of
    the switcher's handle, leaves the thread in that namespace. *)
Lemma moveInterface_returned_home s ifName fromNetNS toNetNS w r w' :
  fd_lookup w (NetNSHandle s) = Some (cur w) ->
  moveInterfaceToAnotherNamespace s ifName fromNetNS toNetNS w = (Returned r, w') ->
  cur w' = cur w.
Proof.
  intros Hh Hm. pose proof (moveInterface_frame _ _ _ _ _ _ _ Hm) as (_ & Hk & _).
  destruct (moveInterface_cases _ _ _ _ _ _ _ Hm) as [(e1 & Hs & _)|(w1 & r' & w2 & back & _ & _ & Hr & Ho)].
  - apply SwitchTo_spec in Hs as (_ & _ & _ & _ & _ & _ & Hc). exact Hc.
  - destruct back; [discriminate|].
    apply SwitchTo_spec in Hr as (_ & _ & _ & _ & _ & _ & Hc).
    apply Hk in Hh. congruence.
Qed.


(** X13. Once the acquisition stage of Request has succeeded, both
    handles are closed when Request is left, on every path: a failed
    relocation, a delegation that succeeds, fails or panics, a compensation
    that succeeds, fails or panics; and whatever the rest of the chain
    does. *)
Theorem Request_releases_handles next_Request request w s t w1 o w' :
  initNetNSSwitchAndHandle (url_of (GetConnection request)) w
  = (Returned (Some s, t, None), w1) ->
  Request next_Request request w = (o, w') ->
  fd_lookup w' (NetNSHandle s) = None /\ fd_lookup w' t = None.
Proof.
  intros Hi HR.
  assert (Hrel : forall x, fd_lookup (released s t x) (NetNSHandle s) = None /\
                           fd_lookup (released s t x) t = None).
  { intros x. destruct (closeHandles_spec s t x) as (_ & _ & _ & _ & _ & H1 & H2). auto. }
  destruct (moveInterfaceToAnotherNamespace s (name_of (GetConnection request))
              (NetNSHandle s) t w1) as [om w2] eqn:Em.
  pose proof (Request_move_outcome next_Request _ _ _ _ _ _ _ Hi Em) as Hmo.
  destruct om as [[e|]|v].
  - rewrite Hmo in HR. injection HR as _ <-. apply Hrel.
  - destruct (next_Server_Request next_Request request (before_next_Request request w2))
      as [o3 w3] eqn:En.
    rewrite (Request_delegated next_Request _ _ _ _ _ _ _ _ Hi Em En) in HR.
    destruct o3 as [[c [e|]]|v].
    + destruct (moveInterfaceToAnotherNamespace s _ t (NetNSHandle s) w3) as [[r|v] w4];
        injection HR as _ <-; apply Hrel.
    + injection HR as _ <-. apply Hrel.
    + injection HR as _ <-. apply Hrel.
  - rewrite Hmo in HR. injection HR as _ <-. apply Hrel.
Qed.

Lemma Request_releases_handles_witness :
  fd_lookup (snd (Request refusing_Request (mkRequest conn1) (start_world 1 []))) 0 = None /\
  fd_lookup (snd (Request refusing_Request (mkRequest conn1) (start_world 1 []))) 1 = None.
Proof.
  apply (Request_releases_handles refusing_Request (mkRequest conn1) (start_world 1 [])
           (mkNSSwitch 0) 1 (stage_init [])
           (fst (Request refusing_Request (mkRequest conn1) (start_world 1 [])))).
  - vm_compute. reflexivity.
  - apply surjective_pairing.
Defined.

(** X14. Once the acquisition stage of Close has succeeded, both handles
    are closed when Close is left, on every path and whatever the rest of
    the chain does. *)
Theorem Close_releases_handles next_Close conn w s t w1 o w' :
  initNetNSSwitchAndHandle (url_of conn) w = (Returned (Some s, t, None), w1) ->
  Close next_Close conn w = (o, w') ->
  fd_lookup w' (NetNSHandle s) = None /\ fd_lookup w' t = None.
Proof.
  intros Hi HC.
  assert (Hrel : forall x, fd_lookup (released s t x) (NetNSHandle s) = None /\
                           fd_lookup (released s t x) t = None).
  { intros x. destruct (closeHandles_spec s t x) as (_ & _ & _ & _ & _ & H1 & H2). auto. }
  destruct (moveInterfaceToAnotherNamespace s (name_of conn) t (NetNSHandle s) w1)
    as [om w2] eqn:Em.
  rewrite (Close_move_outcome next_Close _ _ _ _ _ _ _ Hi Em) in HC.
  destruct om as [[e|]|v]; try (injection HC as _ <-; apply Hrel).
  destruct (next_Server_Close next_Close conn (before_next_Close conn w2)) as [o3 w3].
  injection HC as _ <-. apply Hrel.
Qed.

Lemma Close_releases_handles_witness :
  fd_lookup (snd (Close accepting_Close conn1 (start_world 2 []))) 0 = None /\
  fd_lookup (snd (Close accepting_Close conn1 (start_world 2 []))) 1 = None.
Proof.
  apply (Close_releases_handles accepting_Close conn1 (start_world 2 [])
           (mkNSSwitch 0) 1 (snd (initNetNSSwitchAndHandle (url_of conn1) (start_world 2 [])))
           (fst (Close accepting_Close conn1 (start_world 2 [])))).
  - vm_compute. reflexivity.
  - apply surjective_pairing.
Defined.

(** X15. When the relocation of Request returns an error, Request returns
    a nil connection with that error, wrapped, and the rest of the chain is
    not consulted: the run is the same for every chain.  No interface has
    moved and the thread is in the namespace it started in. *)
Theorem Request_relocation_failure request w s t w1 e w2 :
  initNetNSSwitchAndHandle (url_of (GetConnection request)) w
  = (Returned (Some s, t, None), w1) ->
  moveInterfaceToAnotherNamespace s (name_of (GetConnection request)) (NetNSHandle s) t w1
  = (Returned (Some e), w2) ->
  exists w',
    (forall next_Request,
        Request next_Request request w
        = (Returned (None,
                     Some (errors_Wrapf e
                       "failed to move network interface %s into the Client's namespace"
                       [ArgString (name_of (GetConnection request))])), w')) /\
    links w' = links w /\ cur w' = cur w.
Proof.
  intros Hi Hm. exists (released s t w2). split.
  - intros next_Request.
    exact (Request_move_outcome next_Request _ _ _ _ _ _ _ Hi Hm).
  - destruct (closeHandles_spec s t w2) as (_ & Hc & _ & Hl & _).
    destruct (initNetNSSwitchAndHandle_spec _ _ _ _ Hi) as (Hc1 & _ & Hl1 & _ & _ & _ & _ & _ & Hh & _).
    rewrite <- Hc1 in Hh.
    pose proof (moveInterface_returned_home _ _ _ _ _ _ _ Hh Hm) as Hc2.
    apply moveInterface_cases in Hm as [(e1 & Hs & _)|(w1' & r & w3 & back & Hs & Hb & Hr & Ho)].
    + apply SwitchTo_spec in Hs as (_ & Hl2 & _). split; congruence.
    + destruct back; [discriminate|]. injection Ho as <-.
      apply SwitchTo_spec in Hs as (_ & Hl2 & _).
      apply SwitchTo_spec in Hr as (_ & Hl4 & _).
      apply moveLink_spec in Hb as (r' & [= <-] & _ & _ & _ & _ & _ & _ & Hl3 & _).
      split; congruence.
Qed.

Lemma Request_relocation_failure_witness :
  exists w',
    (forall next_Request,
        Request next_Request (mkRequest conn1) (start_world 2 [])
        = (Returned (None,
                     Some (errors_Wrapf
                             (errors_Wrapf (LinkNotFound "veth0")
                                           "failed to get net interface: %v"
                                           [ArgString "veth0"])
                             "failed to move network interface %s into the Client's namespace"
                             [ArgString "veth0"])), w')) /\
    links w' = links (start_world 2 []) /\ cur w' = 1%nat.
Proof.
  apply (Request_relocation_failure (mkRequest conn1) (start_world 2 []) (mkNSSwitch 0) 1
           (snd (initNetNSSwitchAndHandle (url_of conn1) (start_world 2 [])))
           (errors_Wrapf (LinkNotFound "veth0") "failed to get net interface: %v"
                         [ArgString "veth0"])
           (snd (moveInterfaceToAnotherNamespace (mkNSSwitch 0) "veth0" 0 1
                   (snd (initNetNSSwitchAndHandle (url_of conn1) (start_world 2 [])))))).
  - vm_compute. reflexivity.
  - vm_compute. reflexivity.
Defined.

Section WellBehavedChain.

Variable next_Request : NetworkServiceRequest -> M (option Connection * option error).
Variable next_Close : Connection -> M (option Empty * option error).

(** The rest of the chain leaves the thread in the namespace it found it
    in, moves no interface and closes no descriptor. *)
Hypothesis next_Request_keeps : forall request w o w',
  next_Request request w = (o, w') ->
  cur w' = cur w /\ links w' = links w /\ fds_kept w w'.

Hypothesis next_Close_keeps : forall conn w o w',
  next_Close conn w = (o, w') -> cur w' = cur w.




End WellBehavedChain.






(* ===================================================================== *)
(** ** The ipaddress chain element *)
(* ===================================================================== *)

Ltac run_ipaddress :=
  unfold ipaddress.Request, ipaddress.Close; unfold_M.

(** X19. ipaddress.Request never returns a connection together with an
    error.  When it returns without an error, the connection is the one the
    rest of the chain returned, create has succeeded on it, and Close has
    not been called: the world is the one create left. *)
Theorem ipaddress_Request_outcome next_Request next_Close create isClient request w c e w' :
  ipaddress.Request next_Request next_Close create isClient request w
  = (Returned (c, e), w') ->
  (e <> None -> c = None) /\
  (e = None ->
   exists w1,
     ipaddress.next_Server_Request next_Request request w = (Returned (c, None), w1) /\
     create c isClient w1 = (Returned None, w')).
Proof.
  run_ipaddress.
  destruct (ipaddress.next_Server_Request next_Request request w) as [[[c1 [e1|]]|v] w1];
    [intros [= <- <- <-]; split; [reflexivity|discriminate] | | discriminate].
  destruct (create c1 isClient w1) as [[[e2|]|v] w2] eqn:Ecr; [| |discriminate].
  - destruct (ipaddress.next_Server_Close next_Close c1 w2) as [[r|v] w3]; [|discriminate].
    intros [= <- <- <-]. split; [reflexivity|discriminate].
  - intros [= <- <- <-]. split; [congruence|]. intros _. exists w1. auto.
Qed.

Lemma ipaddress_Request_outcome_witness :
  (@None error <> None -> Some conn1 = None) /\
  (@None error = None ->
   exists w1,
     ipaddress.next_Server_Request accepting_Request (mkRequest conn1) (start_world 1 [])
     = (Returned (Some conn1, None), w1) /\
     logging_create false (Some conn1) true w1
     = (Returned None,
        snd (ipaddress.Request accepting_Request failing_Close (logging_create false) true
               (mkRequest conn1) (start_world 1 [])))).
Proof.
  apply (ipaddress_Request_outcome accepting_Request failing_Close (logging_create false) true
           (mkRequest conn1) (start_world 1 [])).
  vm_compute. reflexivity.
Defined.

(** X20. When create fails, ipaddress.Request closes the connection the
    rest of the chain returned, in the world create left, and then returns
    a nil connection with the error of create: what Close returns, an error
    included, is dropped. *)
Theorem ipaddress_Request_create_failure
  next_Request next_Close create isClient request w conn w1 e w2 r w3 :
  ipaddress.next_Server_Request next_Request request w = (Returned (conn, None), w1) ->
  create conn isClient w1 = (Returned (Some e), w2) ->
  ipaddress.Close next_Close conn w2 = (Returned r, w3) ->
  ipaddress.Request next_Request next_Close create isClient request w
  = (Returned (None, Some e), w3).
Proof.
  intros Hn Hc Hcl. revert Hcl. run_ipaddress. intros Hcl.
  rewrite Hn, Hc, Hcl. reflexivity.
Qed.

Lemma ipaddress_Request_create_failure_witness :
  ipaddress.Request accepting_Request failing_Close (logging_create true) true
                    (mkRequest conn1) (start_world 1 [])
  = (Returned (None, Some (ChainError "no address")),
     mkWorld 1%nat ∅ {[ "/var/run/netns/client1"%string := 2%nat ]}
             {[ (1%nat, "veth0"%string) := 7%nat ]} []
             [EvNextClose; EvInfof "create" [ArgString "conn-1"]; EvNextRequest]).
Proof.
  apply (ipaddress_Request_create_failure accepting_Request failing_Close
           (logging_create true) true (mkRequest conn1) (start_world 1 []) (Some conn1)
           (emit EvNextRequest (start_world 1 [])) (ChainError "no address")
           (emit (EvInfof "create" [ArgString "conn-1"])
                 (emit EvNextRequest (start_world 1 [])))
           (None, Some (ChainError "close refused")));
    vm_compute; reflexivity.
Defined.

(** X21. When the rest of the chain fails, ipaddress.Request returns its
    error with a nil connection, whatever connection came with the error,
    and runs neither create nor Close: the run is the same for every create
    and every Close. *)
Theorem ipaddress_Request_next_failure next_Request request w conn e w1 :
  ipaddress.next_Server_Request next_Request request w = (Returned (conn, Some e), w1) ->
  forall next_Close create isClient,
    ipaddress.Request next_Request next_Close create isClient request w
    = (Returned (None, Some e), w1).
Proof.
  intros Hn next_Close create isClient. run_ipaddress. rewrite Hn. reflexivity.
Qed.

Lemma ipaddress_Request_next_failure_witness :
  ipaddress.Request refusing_Request failing_Close (logging_create true) true
                    (mkRequest conn1) (start_world 1 [])
  = (Returned (None, Some (ChainError "refused")), emit EvNextRequest (start_world 1 [])).
Proof.
  apply (ipaddress_Request_next_failure refusing_Request (mkRequest conn1) (start_world 1 [])
           None (ChainError "refused")).
  reflexivity.
Defined.
